(** * Session lifecycle of the UIDAM portal: gateway, views, confirmation, refresh

    A shallow embedding of
      - [src/services/sessionService.ts]            (the session API gateway),
      - [src/features/session-management/ActiveSessionsManagement.tsx]
                                                    (the self-service view),
      - the [AdminSessionsModal] component          (the admin view),
    and the properties their specification states about them.

    Asynchronous handlers are written in a small free monad [Prog] whose
    constructors are the effects the TypeScript performs: component state
    updates, console output, the three uses of the HTTP client adapter,
    the host's interval timers, and un-awaited calls of other async
    functions.  A runner executes one handler against a scripted backend
    and records what an observer of the browser would see. *)

From Stdlib Require Import String List ZArith Lia Bool.
From Stdlib Require Import Ascii DecimalString.
Import ListNotations.

Local Open Scope list_scope.

(** Template-string concatenation. *)
Infix "+++" := String.append (right associativity, at level 60).

(* ================================================================== *)
(** ** JavaScript values that the code inspects *)

(** A property read: [undefined] (property missing), [null], or a value. *)
Inductive Field (A : Type) : Type :=
| Missing
| Null
| Present (a : A).
Arguments Missing {A}.
Arguments Null {A}.
Arguments Present {A} a.

(** [f ?? d] *)
Definition nullish {A : Type} (f : Field A) (d : A) : A :=
  match f with
  | Present a => a
  | Missing | Null => d
  end.

(** [f || d] where [f], when present, is an array (arrays are truthy,
    also the empty one). *)
Definition array_or {A : Type} (f : Field (list A)) (d : list A) : list A :=
  match f with
  | Present l => l
  | Missing | Null => d
  end.

(** Truthiness of a [string | null]: [null] and the empty string are falsy. *)
Definition truthy (s : option string) : bool :=
  match s with
  | None => false
  | Some x => negb (x =? "")%string
  end.

(** What a [catch (err: unknown)] clause can receive. *)
Inductive Thrown : Type :=
| ErrorInstance (message : string)      (* [err instanceof Error] *)
| NotAnError (description : string).    (* anything else that was thrown *)

(** [err instanceof Error ? err.message : fallback] *)
Definition message_or (err : Thrown) (fallback : string) : string :=
  match err with
  | ErrorInstance m => m
  | NotAnError _ => fallback
  end.

(* ================================================================== *)
(** ** Data model ([@/types]) *)

Record ActiveSession : Type := mkSession {
  sessionId : string;
  deviceInfo : string;
  browser : option string;
  os : option string;
  ipAddress : string;
  location : option string;
  loginTime : string;
  lastActivity : string;
  isCurrent : bool
}.

(** The body of a successful list call as it arrives: the declared type
    says [sessions: ActiveSession[]], the views guard against its absence. *)
Record SessionsResponse : Type := mkResponse {
  sessions_field : Field (list ActiveSession);
  totalCount : Z
}.

(** [getConfig()] of [@config/runtimeConfig]: the one key the gateway reads. *)
Record RuntimeConfig : Type := mkConfig {
  REACT_APP_SESSION_API_PREFIX : Field string
}.

(* ================================================================== *)
(** ** Effects *)

Inductive Method : Type := GET | POST.

(** The object literals passed to [authServerApi.post]. *)
Inductive PostBody : Type :=
| body_tokenIds (tokenIds : list string)                      (* { tokenIds } *)
| body_username (username : string)                           (* { username } *)
| body_username_tokenIds (username : string) (tokenIds : list string).
                                                    (* { username, tokenIds } *)

Inductive Level : Type := LogLevel | ErrorLevel.

(** How a promise settles. *)
Inductive Settled (X : Type) : Type :=
| Resolved (x : X)
| Rejected (err : Thrown).
Arguments Resolved {X} x.
Arguments Rejected {X} err.

(** Programs over a component state [St] producing an [A].

    [Ret a] is normal completion, [Return] the statement [return;] of a
    void function, [Throw] a thrown value.  The three [Api*] nodes are the
    awaited calls of the HTTP client adapter; their continuation receives
    how the promise settled.  [Console] is [console.log] or
    [console.error]; of its arguments the leading string is kept.
    [Spawn p k] is a call [p()] of an async function whose promise is
    dropped (not awaited). *)
Inductive Prog (St A : Type) : Type :=
| Ret (a : A)
| Return
| Throw (err : Thrown)
| SetState (f : St -> St) (k : Prog St A)
| Console (lvl : Level) (text : string) (k : Prog St A)
| ApiGet (url : string) (k : Settled SessionsResponse -> Prog St A)
| ApiPostSessions (url : string) (body : PostBody)
                  (k : Settled SessionsResponse -> Prog St A)
| ApiPost (url : string) (body : PostBody) (k : Settled unit -> Prog St A)
| SetInterval (callback : Prog St unit) (ms : Z) (k : nat -> Prog St A)
| ClearInterval (id : nat) (k : Prog St A)
| Spawn (p : Prog St unit) (k : Prog St A).
Arguments Ret {St A} a.
Arguments Return {St A}.
Arguments Throw {St A} err.
Arguments SetState {St A} f k.
Arguments Console {St A} lvl text k.
Arguments ApiGet {St A} url k.
Arguments ApiPostSessions {St A} url body k.
Arguments ApiPost {St A} url body k.
Arguments SetInterval {St A} callback ms k.
Arguments ClearInterval {St A} id k.
Arguments Spawn {St A} p k.

(** Continue [p] according to how it completes. *)
Fixpoint on_completion {St A B : Type} (p : Prog St A)
    (normal : A -> Prog St B) (returned : Prog St B)
    (threw : Thrown -> Prog St B) : Prog St B :=
  match p with
  | Ret a => normal a
  | Return => returned
  | Throw err => threw err
  | SetState f k => SetState f (on_completion k normal returned threw)
  | Console lvl t k => Console lvl t (on_completion k normal returned threw)
  | ApiGet url k =>
      ApiGet url (fun r => on_completion (k r) normal returned threw)
  | ApiPostSessions url b k =>
      ApiPostSessions url b
        (fun r => on_completion (k r) normal returned threw)
  | ApiPost url b k =>
      ApiPost url b (fun r => on_completion (k r) normal returned threw)
  | SetInterval cb ms k =>
      SetInterval cb ms (fun id => on_completion (k id) normal returned threw)
  | ClearInterval id k =>
      ClearInterval id (on_completion k normal returned threw)
  | Spawn q k => Spawn q (on_completion k normal returned threw)
  end.

(** Sequencing: a [return;] or a throw skips what follows. *)
Definition bind {St A B : Type} (p : Prog St A) (f : A -> Prog St B) : Prog St B :=
  on_completion p f Return Throw.

Notation "x <- p ;; q" := (bind p (fun x => q))
  (at level 61, p at next level, right associativity).
Notation "p ;; q" := (bind p (fun _ => q))
  (at level 61, right associativity).

(** [try { body } catch (err) { handler err }] *)
Definition try_catch {St A : Type} (body : Prog St A)
    (handler : Thrown -> Prog St A) : Prog St A :=
  on_completion body Ret Return handler.

(** [try { body } finally { fin }]: [fin] runs however [body] completes,
    and the completion of [body] stands when [fin] completes normally. *)
Definition finally {St A : Type} (body : Prog St A) (fin : Prog St unit)
  : Prog St A :=
  on_completion body
    (fun a => fin ;; Ret a)
    (fin ;; Return)
    (fun err => fin ;; Throw err).

(** The boundary of a void async function: [return;] ends the call. *)
Definition async_fn {St : Type} (body : Prog St unit) : Prog St unit :=
  on_completion body Ret (Ret tt) Throw.

(** [await p] of a promise that settles as [r]. *)
Definition settle {St X : Type} (r : Settled X) : Prog St X :=
  match r with
  | Resolved x => Ret x
  | Rejected err => Throw err
  end.

Definition set {St : Type} (f : St -> St) : Prog St unit := SetState f (Ret tt).
Definition console_log {St : Type} (text : string) : Prog St unit :=
  Console LogLevel text (Ret tt).
Definition console_error {St : Type} (text : string) : Prog St unit :=
  Console ErrorLevel text (Ret tt).
Definition spawn {St : Type} (p : Prog St unit) : Prog St unit := Spawn p (Ret tt).

(* ================================================================== *)
(** ** The session API gateway ([SessionService]) *)

Module SessionService.
Section Gateway.
Variable cfg : RuntimeConfig.
Variable St : Type.

(** [getConfig().REACT_APP_SESSION_API_PREFIX ?? '/sdp'] *)
Definition getPrefix : string :=
  nullish (REACT_APP_SESSION_API_PREFIX cfg) "/sdp"%string.

Definition getActiveSessions : Prog St SessionsResponse :=
  try_catch
    (let url := getPrefix +++ "/self/tokens/active" in
     console_log "Fetching active sessions:" ;;
     response <- ApiGet url settle ;;
     Ret response)
    (fun error_ =>
       console_error "Error fetching active sessions:" ;;
       Throw error_).

Definition terminateSessions (tokenIds : list string) : Prog St unit :=
  try_catch
    (let url := getPrefix +++ "/self/tokens/invalidate" in
     console_log "Terminating sessions:" ;;
     ApiPost url (body_tokenIds tokenIds) settle)
    (fun error_ =>
       console_error "Error terminating sessions:" ;;
       Throw error_).

Definition getAdminActiveSessions (username : string)
  : Prog St SessionsResponse :=
  try_catch
    (let url := getPrefix +++ "/admin/tokens/active" in
     console_log "Fetching active sessions for user:" ;;
     response <- ApiPostSessions url (body_username username) settle ;;
     Ret response)
    (fun error_ =>
       console_error ("Error fetching sessions for user " +++ username +++ ":") ;;
       Throw error_).

Definition terminateAdminSessions (username : string)
    (tokenIds : list string) : Prog St unit :=
  try_catch
    (let url := getPrefix +++ "/admin/tokens/invalidate" in
     console_log "Terminating sessions for user:" ;;
     ApiPost url (body_username_tokenIds username tokenIds) settle)
    (fun error_ =>
       console_error ("Error terminating sessions for user " +++ username +++ ":") ;;
       Throw error_).
End Gateway.
Arguments getActiveSessions cfg {St}.
Arguments terminateSessions cfg {St} tokenIds.
Arguments getAdminActiveSessions cfg {St} username.
Arguments terminateAdminSessions cfg {St} username tokenIds.
End SessionService.

(* ================================================================== *)
(** ** Running a handler *)

(** The backend as one interaction sees it: how each call of the HTTP
    client adapter settles ([authServerApi.get<SessionsResponse>],
    [authServerApi.post<SessionsResponse>], [authServerApi.post]). *)
Record Backend : Type := mkBackend {
  on_get : string -> Settled SessionsResponse;
  on_post_sessions : string -> PostBody -> Settled SessionsResponse;
  on_post : string -> PostBody -> Settled unit
}.

(** An interval registered with the host: [callback] runs every [period]
    milliseconds, next at clock value [due]. *)
Record Timer (St : Type) : Type := mkTimer {
  timer_id : nat;
  period : Z;
  due : Z;
  callback : Prog St unit
}.
Arguments mkTimer {St}.
Arguments timer_id {St}.
Arguments period {St}.
Arguments due {St}.
Arguments callback {St}.

(** The component's state together with the host's clock and timers. *)
Record World (St : Type) : Type := mkWorld {
  state : St;
  clock : Z;
  timers : list (Timer St);
  next_timer : nat
}.
Arguments mkWorld {St}.
Arguments state {St}.
Arguments clock {St}.
Arguments timers {St}.
Arguments next_timer {St}.

(** What can be observed of a run, in order. *)
Inductive Obs (St : Type) : Type :=
| Request (m : Method) (url : string) (body : option PostBody)
| Logged (lvl : Level) (text : string)
| Paint (s : St)             (* the state rendered while a call is in flight *)
| Unhandled (err : Thrown)   (* a dropped promise that rejected *)
| TimerSet (id : nat) (ms : Z)
| TimerCleared (id : nat).
Arguments Request {St} m url body.
Arguments Logged {St} lvl text.
Arguments Paint {St} s.
Arguments Unhandled {St} err.
Arguments TimerSet {St} id ms.
Arguments TimerCleared {St} id.

Inductive Completion (A : Type) : Type :=
| Normal (a : A)
| Returned
| Threw (err : Thrown).
Arguments Normal {A} a.
Arguments Returned {A}.
Arguments Threw {A} err.

Definition update {St : Type} (f : St -> St) (w : World St) : World St :=
  mkWorld (f (state w)) (clock w) (timers w) (next_timer w).

(** [setInterval(callback, ms)]: the host hands out a fresh id. *)
Definition add_timer {St : Type} (cb : Prog St unit) (ms : Z) (w : World St)
  : World St :=
  mkWorld (state w) (clock w)
    (timers w ++ [mkTimer (next_timer w) ms (clock w + ms) cb])
    (Datatypes.S (next_timer w)).

(** [clearInterval(id)] *)
Definition remove_timer {St : Type} (id : nat) (w : World St) : World St :=
  mkWorld (state w) (clock w)
    (filter (fun t => negb (Nat.eqb (timer_id t) id)) (timers w))
    (next_timer w).

(** A dropped promise that rejects is reported by the host. *)
Definition dropped {St A : Type} (c : Completion A) : list (Obs St) :=
  match c with
  | Threw err => [Unhandled err]
  | Normal _ | Returned => []
  end.

Section Run.
Variable St : Type.
Variable backend : Backend.

(** [run p w] executes [p] to completion: each awaited call is sent,
    the state of that moment is painted, and the program resumes with
    the backend's answer.  [start p w] executes an un-awaited call: [p]
    runs up to its first await, where the caller gets control back;
    the rest of [p], if any, is returned to be resumed once the caller
    is done. *)
Fixpoint run {A : Type} (p : Prog St A) (w : World St) {struct p}
  : World St * list (Obs St) * Completion A :=
  match p with
  | Ret a => (w, [], Normal a)
  | Return => (w, [], Returned)
  | Throw err => (w, [], Threw err)
  | SetState f k => run k (update f w)
  | Console lvl t k =>
      let '(w', l, c) := run k w in (w', Logged lvl t :: l, c)
  | ApiGet url k =>
      let '(w', l, c) := run (k (on_get backend url)) w in
      (w', Request GET url None :: Paint (state w) :: l, c)
  | ApiPostSessions url b k =>
      let '(w', l, c) := run (k (on_post_sessions backend url b)) w in
      (w', Request POST url (Some b) :: Paint (state w) :: l, c)
  | ApiPost url b k =>
      let '(w', l, c) := run (k (on_post backend url b)) w in
      (w', Request POST url (Some b) :: Paint (state w) :: l, c)
  | SetInterval cb ms k =>
      let '(w', l, c) := run (k (next_timer w)) (add_timer cb ms w) in
      (w', TimerSet (next_timer w) ms :: l, c)
  | ClearInterval id k =>
      let '(w', l, c) := run k (remove_timer id w) in
      (w', TimerCleared id :: l, c)
  | Spawn q k =>
      let '(w1, l1, rest) := start q w in
      let '(w2, l2, c) := run k w1 in
      match rest with
      | None => (w2, l1 ++ l2, c)
      | Some resume =>
          let '(w3, l3) := resume w2 in
          (w3, l1 ++ l2 ++ Paint (state w2) :: l3, c)
      end
  end
with start {A : Type} (p : Prog St A) (w : World St) {struct p}
  : World St * list (Obs St)
    * option (World St -> World St * list (Obs St)) :=
  match p with
  | Ret _ | Return => (w, [], None)
  | Throw err => (w, [Unhandled err], None)
  | SetState f k => start k (update f w)
  | Console lvl t k =>
      let '(w', l, r) := start k w in (w', Logged lvl t :: l, r)
  | ApiGet url k =>
      (w, [Request GET url None],
       Some (fun w' =>
               let '(w'', l, c) := run (k (on_get backend url)) w' in
               (w'', l ++ dropped c)))
  | ApiPostSessions url b k =>
      (w, [Request POST url (Some b)],
       Some (fun w' =>
               let '(w'', l, c) := run (k (on_post_sessions backend url b)) w' in
               (w'', l ++ dropped c)))
  | ApiPost url b k =>
      (w, [Request POST url (Some b)],
       Some (fun w' =>
               let '(w'', l, c) := run (k (on_post backend url b)) w' in
               (w'', l ++ dropped c)))
  | SetInterval cb ms k =>
      let '(w', l, r) := start (k (next_timer w)) (add_timer cb ms w) in
      (w', TimerSet (next_timer w) ms :: l, r)
  | ClearInterval id k =>
      let '(w', l, r) := start k (remove_timer id w) in
      (w', TimerCleared id :: l, r)
  | Spawn q k =>
      let '(w1, l1, r1) := start q w in
      let '(w2, l2, r2) := start k w1 in
      (w2, l1 ++ l2,
       match r2, r1 with
       | None, None => None
       | Some f, None | None, Some f => Some f
       | Some f2, Some f1 =>
           Some (fun w' =>
                   let '(wa, la) := f2 w' in
                   let '(wb, lb) := f1 wa in
                   (wb, la ++ Paint (state wa) :: lb))
       end)
  end.

(** One whole interaction: the handler of a user action or of the host,
    run until nothing of it remains pending. *)
Definition interaction (p : Prog St unit) (w : World St)
  : World St * list (Obs St) :=
  let '(w', l, c) := run p w in (w', l ++ dropped c).
End Run.
Arguments run {St} backend {A} p w.
Arguments start {St} backend {A} p w.
Arguments interaction {St} backend p w.

(** The calls of the HTTP client adapter among the observations. *)
Fixpoint requests {St : Type} (l : list (Obs St))
  : list (Method * string * option PostBody) :=
  match l with
  | [] => []
  | Request m url body :: l' => (m, url, body) :: requests l'
  | _ :: l' => requests l'
  end.

(** The states painted while calls were in flight. *)
Fixpoint paints {St : Type} (l : list (Obs St)) : list St :=
  match l with
  | [] => []
  | Paint s :: l' => s :: paints l'
  | _ :: l' => paints l'
  end.

(* ================================================================== *)
(** ** String methods the views use *)

(** Lower case of one character: the letters A to Z move to a to z. *)
Definition lower_ascii (c : ascii) : ascii :=
  let n := nat_of_ascii c in
  if ((65 <=? n) && (n <=? 90))%nat then ascii_of_nat (n + 32) else c.

(** [s.toLowerCase()], on the letters A to Z.  The views only search the
    result for the ASCII words below; no other character has a lower
    case that could complete one of them. *)
Fixpoint toLowerCase (s : string) : string :=
  match s with
  | EmptyString => EmptyString
  | String c s' => String (lower_ascii c) (toLowerCase s')
  end.

(** [s.includes(k)]: [k] occurs in [s] at some position. *)
Fixpoint includes (s k : string) : bool :=
  String.prefix k s
  || match s with
     | EmptyString => false
     | String _ s' => includes s' k
     end.

(** The icon elements [<PhoneIcon />], [<TabletIcon />], [<ComputerIcon />]. *)
Inductive Icon : Type := PhoneIcon | TabletIcon | ComputerIcon.

(** A number inside a template string. *)
Definition decimal (n : nat) : string :=
  NilEmpty.string_of_uint (Nat.to_uint n).

(** The sessions a "terminate all others" is aimed at:
    [sessions.filter(session => !session.isCurrent)] *)
Definition others (sessions : list ActiveSession) : list ActiveSession :=
  filter (fun session => negb (isCurrent session)) sessions.

(* ================================================================== *)
(** ** The self-service view ([ActiveSessionsManagement]) *)

Module ActiveSessionsManagement.

(** The [confirmDialog] state: [{ open, sessionId, isTerminateAll }]. *)
Record ConfirmDialog : Type := mkConfirm {
  open : bool;
  dialog_sessionId : option string;      (* [sessionId: string | null] *)
  isTerminateAll : bool
}.

Definition closed : ConfirmDialog := mkConfirm false None false.

(** The five [useState] cells. *)
Record View : Type := mkView {
  sessions : list ActiveSession;
  loading : bool;
  error : option string;
  success : option string;
  confirmDialog : ConfirmDialog
}.

Definition initial : View := mkView [] false None None closed.

Definition setSessions (l : list ActiveSession) : Prog View unit :=
  set (fun v => mkView l (loading v) (error v) (success v) (confirmDialog v)).
Definition setLoading (b : bool) : Prog View unit :=
  set (fun v => mkView (sessions v) b (error v) (success v) (confirmDialog v)).
Definition setError (e : option string) : Prog View unit :=
  set (fun v => mkView (sessions v) (loading v) e (success v) (confirmDialog v)).
Definition setSuccess (s : option string) : Prog View unit :=
  set (fun v => mkView (sessions v) (loading v) (error v) s (confirmDialog v)).
Definition setConfirmDialog (d : ConfirmDialog) : Prog View unit :=
  set (fun v => mkView (sessions v) (loading v) (error v) (success v) d).

(** Auto-refresh interval (30 seconds) *)
Definition AUTO_REFRESH_INTERVAL : Z := 30000.

Section Component.
Variable cfg : RuntimeConfig.

Definition fetchSessions : Prog View unit :=
  async_fn
    (setLoading true ;;
     setError None ;;
     finally
       (try_catch
          (response <- SessionService.getActiveSessions cfg ;;
           setSessions (array_or (sessions_field response) []))
          (fun err =>
             let errorMessage :=
               message_or err "Failed to fetch active sessions" in
             setError (Some errorMessage) ;;
             console_error "Error fetching sessions:"))
       (setLoading false)).

(** The body of the [useEffect]: fetch, then register the interval.
    Its result is the interval id the cleanup closes over. *)
Definition effect : Prog View nat :=
  spawn fetchSessions ;;
  SetInterval fetchSessions AUTO_REFRESH_INTERVAL (fun intervalId =>
  Ret intervalId).


Definition handleTerminateSession (sessionId : string) : Prog View unit :=
  async_fn
    (finally
       (try_catch
          (SessionService.terminateSessions cfg [sessionId] ;;
           setSuccess (Some "Session terminated successfully"%string) ;;
           spawn fetchSessions)
          (fun err =>
             let errorMessage :=
               message_or err "Failed to terminate session" in
             setError (Some errorMessage)))
       (setConfirmDialog closed)).

Definition openConfirmDialog (sessionId : option string)
    (isTerminateAll : bool) : Prog View unit :=
  setConfirmDialog (mkConfirm true sessionId isTerminateAll).

Definition closeConfirmDialog : Prog View unit :=
  setConfirmDialog closed.

(** The functions below close over the state of the render [v] in
    which they were created. *)
Section Render.
Variable v : View.

Definition handleTerminateAllOtherSessions : Prog View unit :=
  async_fn
    (finally
       (try_catch
          (let tokenIds := map sessionId (others (sessions v)) in
           if (length tokenIds =? 0)%nat
           then
             setError (Some "No other sessions to terminate"%string) ;;
             Return
           else
             SessionService.terminateSessions cfg tokenIds ;;
             setSuccess
               (Some "All other sessions terminated successfully"%string) ;;
             spawn fetchSessions)
          (fun err =>
             let errorMessage :=
               message_or err "Failed to terminate all sessions" in
             setError (Some errorMessage)))
       (setConfirmDialog closed)).

Definition handleConfirm : Prog View unit :=
  if isTerminateAll (confirmDialog v) then
    spawn handleTerminateAllOtherSessions
  else if truthy (dialog_sessionId (confirmDialog v)) then
    match dialog_sessionId (confirmDialog v) with
    | Some sessionId => spawn (handleTerminateSession sessionId)
    | None => Ret tt
    end
  else Ret tt.

Definition otherSessionsCount : nat := length (others (sessions v)).

(** [loading && sessions.length === 0]: the progress indicator
    replaces the grid of session cards. *)
Definition showsSpinner : bool :=
  loading v && (length (sessions v) =? 0)%nat.

(** What the user can do with the rendered view. *)
Inductive Action : Type :=
| ClickTerminateAll            (* "Terminate All Other Sessions" *)
| ClickRefresh                 (* the refresh icon *)
| CloseError                   (* [onClose] of the error alert *)
| CloseSuccess                 (* [onClose] of the success alert *)
| ClickDelete (card : nat)     (* the delete icon of a session card *)
| DismissDialog                (* [onClose] of the dialog *)
| ClickCancel                  (* "Cancel" *)
| ClickTerminate.              (* "Terminate", the affirmative button *)

(** Whether the control exists and is enabled in this render. *)
Definition offered (a : Action) : bool :=
  match a with
  | ClickTerminateAll => negb (loading v || (otherSessionsCount =? 0)%nat)
  | ClickRefresh => negb (loading v)
  | CloseError => truthy (error v)
  | CloseSuccess => truthy (success v)
  | ClickDelete card =>
      negb showsSpinner &&
      match nth_error (sessions v) card with
      | Some session => negb (isCurrent session)
      | None => false
      end
  | DismissDialog | ClickCancel | ClickTerminate =>
      open (confirmDialog v)
  end.

(** The handler bound to the control. *)
Definition handler (a : Action) : Prog View unit :=
  match a with
  | ClickTerminateAll => openConfirmDialog None true
  | ClickRefresh => fetchSessions
  | CloseError => setError None
  | CloseSuccess => setSuccess None
  | ClickDelete card =>
      match nth_error (sessions v) card with
      | Some session => openConfirmDialog (Some (sessionId session)) false
      | None => Ret tt
      end
  | DismissDialog | ClickCancel => closeConfirmDialog
  | ClickTerminate => handleConfirm
  end.

Definition dispatch (a : Action) : Prog View unit :=
  if offered a then handler a else Ret tt.
End Render.

(** One user interaction with the view as it is rendered in [w]. *)
Definition act (backend : Backend) (a : Action) (w : World View)
  : World View * list (Obs View) :=
  interaction backend (dispatch (state w) a) w.
End Component.

Definition getDeviceIcon (deviceInfo : string) : Icon :=
  let lowerDevice := toLowerCase deviceInfo in
  if includes lowerDevice "mobile" || includes lowerDevice "android"
     || includes lowerDevice "iphone"
  then PhoneIcon
  else if includes lowerDevice "tablet" || includes lowerDevice "ipad"
  then TabletIcon
  else ComputerIcon.

(** The title and the text of the confirmation dialog. *)
Definition dialogTitle (v : View) : string :=
  if isTerminateAll (confirmDialog v)
  then "Terminate All Other Sessions?"
  else "Terminate Session?".

Definition dialogText (v : View) : string :=
  if isTerminateAll (confirmDialog v)
  then "Are you sure you want to terminate all other sessions ("
       +++ decimal (otherSessionsCount v)
       +++ ")? You will remain logged in only on this device."
  else "Are you sure you want to terminate this session? The user will be logged out from that device.".
End ActiveSessionsManagement.

(* ================================================================== *)
(** ** The admin view ([AdminSessionsModal]) *)

(** [if (!s) return; k(s)] for an [s : string | null]. *)
Definition when_truthy {St A : Type} (s : option string)
    (k : string -> Prog St A) : Prog St A :=
  match s with
  | Some x => if truthy s then k x else Return
  | None => Return
  end.

Module AdminSessionsModal.

(** The four [useState] cells. *)
Record View : Type := mkView {
  sessions : list ActiveSession;
  loading : bool;
  error : option string;
  success : option string
}.

Definition initial : View := mkView [] false None None.

Definition setSessions (l : list ActiveSession) : Prog View unit :=
  set (fun v => mkView l (loading v) (error v) (success v)).
Definition setLoading (b : bool) : Prog View unit :=
  set (fun v => mkView (sessions v) b (error v) (success v)).
Definition setError (e : option string) : Prog View unit :=
  set (fun v => mkView (sessions v) (loading v) e (success v)).
Definition setSuccess (s : option string) : Prog View unit :=
  set (fun v => mkView (sessions v) (loading v) (error v) s).

Section Component.
Variable cfg : RuntimeConfig.
(** The props [{ open, username, onClose }]; [onClose] belongs to the
    parent and does not touch this component's state. *)
Variable open : bool.
Variable username : option string.

Definition fetchSessions : Prog View unit :=
  async_fn
    (when_truthy username (fun username =>
     setLoading true ;;
     setError None ;;
     finally
       (try_catch
          (response <- SessionService.getAdminActiveSessions cfg username ;;
           setSessions (array_or (sessions_field response) []))
          (fun err =>
             let msg := message_or err "Failed to fetch sessions" in
             setError (Some msg)))
       (setLoading false))).

(** The body of the [useEffect] on [open, username]. *)
Definition effect : Prog View unit :=
  if open && truthy username then
    spawn fetchSessions
  else
    setSessions [] ;;
    setError None ;;
    setSuccess None.

Definition handleTerminate (sessionId : string) : Prog View unit :=
  async_fn
    (when_truthy username (fun username =>
     try_catch
       (SessionService.terminateAdminSessions cfg username [sessionId] ;;
        setSuccess (Some "Session terminated successfully"%string) ;;
        spawn fetchSessions)
       (fun err =>
          let msg := message_or err "Failed to terminate session" in
          setError (Some msg)))).

Section Render.
Variable v : View.

(** What the user can do with the rendered modal. *)
Inductive Action : Type :=
| ClickRefresh                 (* the refresh icon *)
| ClickClose                   (* the close icon, "Close", [onClose] *)
| CloseError
| CloseSuccess
| ClickDelete (card : nat).    (* the delete icon of a session card *)

Definition offered (a : Action) : bool :=
  open &&
  match a with
  | ClickRefresh => negb (loading v)
  | ClickClose => true
  | CloseError => truthy (error v)
  | CloseSuccess => truthy (success v)
  | ClickDelete card =>
      negb (loading v) &&
      match nth_error (sessions v) card with
      | Some session => negb (isCurrent session)
      | None => false
      end
  end.

Definition handler (a : Action) : Prog View unit :=
  match a with
  | ClickRefresh => fetchSessions
  | ClickClose => Ret tt
  | CloseError => setError None
  | CloseSuccess => setSuccess None
  | ClickDelete card =>
      match nth_error (sessions v) card with
      | Some session => handleTerminate (sessionId session)
      | None => Ret tt
      end
  end.

Definition dispatch (a : Action) : Prog View unit :=
  if offered a then handler a else Ret tt.
End Render.

Definition act (backend : Backend) (a : Action) (w : World View)
  : World View * list (Obs View) :=
  interaction backend (dispatch (state w) a) w.
End Component.

Definition getDeviceIcon (deviceInfo : string) : Icon :=
  let lower := toLowerCase deviceInfo in
  if includes lower "mobile" || includes lower "android"
     || includes lower "iphone"
  then PhoneIcon
  else if includes lower "tablet" || includes lower "ipad"
  then TabletIcon
  else ComputerIcon.
End AdminSessionsModal.

(* ================================================================== *)
(** ** The host: mounting, the clock, unmounting *)

Section Host.
Variable St : Type.
Variable backend : Backend.

Definition set_clock (now : Z) (w : World St) : World St :=
  mkWorld (state w) (Z.max (clock w) now) (timers w) (next_timer w).

(** Of two due timers the earlier fires first, and of two due at the
    same time the one registered first. *)
Definition earlier (t : Timer St) (best : option (Timer St))
  : option (Timer St) :=
  match best with
  | None => Some t
  | Some b => if (due t <=? due b)%Z then Some t else Some b
  end.

Definition next_due (ts : list (Timer St)) (target : Z)
  : option (Timer St) :=
  fold_right earlier None (filter (fun t => (due t <=? target)%Z) ts).

(** After firing, an interval is due again one period later. *)
Definition reschedule (t : Timer St) (w : World St) : World St :=
  mkWorld (state w) (clock w)
    (map (fun t' =>
            if Nat.eqb (timer_id t') (timer_id t)
            then mkTimer (timer_id t') (period t')
                   (due t' + Z.max 1 (period t')) (callback t')
            else t')
         (timers w))
    (next_timer w).

Fixpoint advance (fuel : nat) (target : Z) (w : World St)
  : World St * list (Obs St) :=
  match fuel with
  | O => (w, [])
  | Datatypes.S fuel' =>
      match next_due (timers w) target with
      | None => (set_clock target w, [])
      | Some t =>
          let w1 := reschedule t (set_clock (due t) w) in
          let '(w2, l) := interaction backend (callback t) w1 in
          let '(w3, l') := advance fuel' target w2 in
          (w3, l ++ l')
      end
  end.

(** How often the registered timers fire up to [target]. *)
Definition firings (target : Z) (w : World St) : nat :=
  fold_right
    (fun t n =>
       if (due t <=? target)%Z
       then (Z.to_nat ((target - due t) / Z.max 1 (period t)) + 1 + n)%nat
       else n)
    O (timers w).

(** The mocked clock moves forward by [ms] milliseconds. *)
Definition advanceTimersByTime (ms : Z) (w : World St)
  : World St * list (Obs St) :=
  advance (Datatypes.S (firings (clock w + ms) w)) (clock w + ms) w.
End Host.
Arguments set_clock {St} now w.
Arguments next_due {St} ts target.
Arguments reschedule {St} t w.
Arguments advance {St} backend fuel target w.
Arguments firings {St} target w.
Arguments advanceTimersByTime {St} backend ms w.

Module SelfServiceLifecycle.
Import ActiveSessionsManagement.

(** A mounted view: its world and the interval id its cleanup holds. *)
Record Mounted : Type := mkMounted {
  world : World View;
  intervalId : option nat
}.

Section Lifecycle.
Variable cfg : RuntimeConfig.
Variable backend : Backend.

(** React mounts the component and runs its effect. *)
Definition mount (now : Z) : Mounted * list (Obs View) :=
  let '(w, l, c) := run backend (effect cfg) (mkWorld initial now [] O) in
  (mkMounted w match c with Normal id => Some id | _ => None end,
   l ++ dropped c).


Definition tick (ms : Z) (m : Mounted) : Mounted * list (Obs View) :=
  let '(w, l) := advanceTimersByTime backend ms (world m) in
  (mkMounted w (intervalId m), l).

(** The user acts on the mounted view. *)
Definition user (a : Action) (m : Mounted) : Mounted * list (Obs View) :=
  let '(w, l) := act cfg backend a (world m) in
  (mkMounted w (intervalId m), l).
End Lifecycle.
End SelfServiceLifecycle.

(* ================================================================== *)
(** ** Vocabulary of the properties *)

(** A request is an invalidate call when it is a POST to one of the two
    invalidate endpoints. *)
Definition is_invalidate (cfg : RuntimeConfig)
    (r : Method * string * option PostBody) : bool :=
  match r with
  | (POST, url, Some _) =>
      (url =? SessionService.getPrefix cfg +++ "/self/tokens/invalidate")%string
      || (url =? SessionService.getPrefix cfg +++ "/admin/tokens/invalidate")%string
  | _ => false
  end.

Definition invalidations (cfg : RuntimeConfig) {St : Type}
    (l : list (Obs St)) : list (Method * string * option PostBody) :=
  filter (is_invalidate cfg) (requests l).

(** The call [SessionService.terminateSessions(tokenIds)] as a request. *)
Definition invalidate_own (cfg : RuntimeConfig) (tokenIds : list string)
  : Method * string * option PostBody :=
  (POST, SessionService.getPrefix cfg +++ "/self/tokens/invalidate",
   Some (body_tokenIds tokenIds)).

(** The call [SessionService.terminateAdminSessions(username, tokenIds)]
    as a request. *)
Definition invalidate_for_user (cfg : RuntimeConfig) (username : string)
    (tokenIds : list string) : Method * string * option PostBody :=
  (POST, SessionService.getPrefix cfg +++ "/admin/tokens/invalidate",
   Some (body_username_tokenIds username tokenIds)).

(** The call [SessionService.getAdminActiveSessions(username)] as a
    request. *)
Definition list_for_user (cfg : RuntimeConfig) (username : string)
  : Method * string * option PostBody :=
  (POST, SessionService.getPrefix cfg +++ "/admin/tokens/active",
   Some (body_username username)).

(** [k] occurs in [s]: some text, then [k], then some text. *)
Definition occurs (k s : string) : Prop :=
  exists before after, s = before +++ k +++ after.

Module Confirmation.
Import ActiveSessionsManagement.

(** The state painted while a fetch started in [v] is in flight. *)
Definition fetching (v : View) : View :=
  mkView (sessions v) true None (success v) (confirmDialog v).

(** The targets a destructive control stands for in the render [v] in
    which it is clicked. *)
Definition captured (v : View) (a : Action) : list string :=
  match a with
  | ClickDelete card =>
      match nth_error (sessions v) card with
      | Some session => [sessionId session]
      | None => []
      end
  | ClickTerminateAll => map sessionId (others (sessions v))
  | _ => []
  end.

(** The list is fetched again, once per backend state in [refreshes]
    (timer ticks while the dialog is open). *)
Definition refreshed (cfg : RuntimeConfig) (refreshes : list Backend)
    (w : World View) : World View :=
  fold_left (fun w' b => fst (interaction b (fetchSessions cfg) w'))
    refreshes w.

(** Phase 1 and what happens before phase 2: the control [request] is
    clicked in [w], then the list is refreshed. *)
Definition requested (cfg : RuntimeConfig) (backend : Backend)
    (request : Action) (refreshes : list Backend) (w : World View)
  : World View :=
  refreshed cfg refreshes (fst (act cfg backend request w)).

(** The view after a termination of [tokenIds] that began in [v]:
    on success the follow-up fetch decides list and error, on failure
    only the error changes; the dialog is closed either way. *)
Definition terminated (cfg : RuntimeConfig) (backend : Backend) (v : View)
    (tokenIds : list string) (done failed : string) : View :=
  match on_post backend
          (SessionService.getPrefix cfg +++ "/self/tokens/invalidate")
          (body_tokenIds tokenIds) with
  | Resolved _ =>
      match on_get backend
              (SessionService.getPrefix cfg +++ "/self/tokens/active") with
      | Resolved response =>
          mkView (array_or (sessions_field response) []) false None
            (Some done) closed
      | Rejected err =>
          mkView (sessions v) false
            (Some (message_or err "Failed to fetch active sessions"))
            (Some done) closed
      end
  | Rejected err =>
      mkView (sessions v) (loading v) (Some (message_or err failed))
        (success v) closed
  end.

(** The requests of a termination of [tokenIds]: the invalidate call
    and, when it succeeds, the follow-up fetch. *)
Definition termination_requests (cfg : RuntimeConfig) (backend : Backend)
    (tokenIds : list string) : list (Method * string * option PostBody) :=
  invalidate_own cfg tokenIds
  :: match on_post backend
             (SessionService.getPrefix cfg +++ "/self/tokens/invalidate")
             (body_tokenIds tokenIds) with
     | Resolved _ =>
         [(GET, SessionService.getPrefix cfg +++ "/self/tokens/active", None)]
     | Rejected _ => []
     end.

(** C2 as the specification words it: the affirmative button sends one
    invalidate call, for the targets captured when the dialog was
    opened. *)
Definition resolves_with_captured_targets (cfg : RuntimeConfig)
    (backend : Backend) (request : Action) (refreshes : list Backend)
    (w : World View) : Prop :=
  invalidations cfg
    (snd (act cfg backend ClickTerminate
            (requested cfg backend request refreshes w)))
  = [invalidate_own cfg (captured (state w) request)].
End Confirmation.

(** Whole sessions of use of the mounted self-service view. *)
Module SelfServiceScript.
Import ActiveSessionsManagement SelfServiceLifecycle.

(** What can happen to a mounted view: the user acts, or time passes. *)
Inductive Step : Type :=
| User (a : Action)
| Elapse (ms : Z).

Definition step (cfg : RuntimeConfig) (backend : Backend) (s : Step)
    (m : Mounted) : Mounted * list (Obs View) :=
  match s with
  | User a => user cfg backend a m
  | Elapse ms => tick backend ms m
  end.

(** A script pairs each step with the backend as it answers during that
    step; [play] returns the view at the end and what each step showed. *)
Fixpoint play (cfg : RuntimeConfig) (script : list (Backend * Step))
    (m : Mounted) : Mounted * list (list (Obs View)) :=
  match script with
  | [] => (m, [])
  | (backend, s) :: rest =>
      let '(m1, l) := step cfg backend s m in
      let '(m2, ls) := play cfg rest m1 in
      (m2, l :: ls)
  end.

(** A mounted view with its refresh interval in place: the one timer is
    the view's, with the view's period and callback, due in the future. *)
Definition refreshing (cfg : RuntimeConfig) (m : Mounted) : Prop :=
  exists id d,
    intervalId m = Some id
    /\ timers (world m)
       = [mkTimer id AUTO_REFRESH_INTERVAL d (fetchSessions cfg)]
    /\ (clock (world m) < d)%Z.

(** How often an interval due at [d] fires when the clock moves to
    [target]. *)
Definition fires (d target : Z) : nat :=
  if (d <=? target)%Z
  then (Z.to_nat ((target - d) / AUTO_REFRESH_INTERVAL) + 1)%nat
  else O.

(** The two requests the self-service view sends. *)
Definition self_request (cfg : RuntimeConfig)
    (r : Method * string * option PostBody) : Prop :=
  r = (GET, SessionService.getPrefix cfg +++ "/self/tokens/active", None)
  \/ exists tokenIds, r = invalidate_own cfg tokenIds.

(** A click on a destructive control: the delete icon of a card, or
    "Terminate All Other Sessions". *)
Definition destructive (s : Backend * Step) : Prop :=
  snd s = User ClickTerminateAll \/ exists card, snd s = User (ClickDelete card).

(** A script in which the user acts and no time passes. *)
Definition acting (acts : list (Backend * Action)) : list (Backend * Step) :=
  map (fun ba => (fst ba, User (snd ba))) acts.
End SelfServiceScript.

(** Concrete sessions, backends and views for the examples. *)
Module Examples.
Definition cfg_default : RuntimeConfig := mkConfig Missing.

Definition session_1 : ActiveSession :=
  mkSession "session-1" "Chrome on Windows" None None "192.168.1.1" None
    "2026-02-19T10:00:00Z" "2026-02-19T11:00:00Z" true.
Definition session_2 : ActiveSession :=
  mkSession "session-2" "Firefox on Linux" None None "10.0.0.1" None
    "2026-02-20T08:00:00Z" "2026-02-20T09:00:00Z" false.
Definition session_3 : ActiveSession :=
  mkSession "session-3" "Safari on iPhone" None None "10.0.0.7" None
    "2026-02-21T08:00:00Z" "2026-02-21T09:00:00Z" false.

(** A backend that lists [l] and accepts every invalidation. *)
Definition listing (l : list ActiveSession) : Backend :=
  let response := mkResponse (Present l) (Z.of_nat (length l)) in
  mkBackend (fun _ => Resolved response) (fun _ _ => Resolved response)
    (fun _ _ => Resolved tt).

(** A backend whose list call succeeds with the body [response]. *)
Definition answering (response : SessionsResponse) : Backend :=
  mkBackend (fun _ => Resolved response) (fun _ _ => Resolved response)
    (fun _ _ => Resolved tt).

(** A backend that is unreachable. *)
Definition failing (message : string) : Backend :=
  mkBackend (fun _ => Rejected (ErrorInstance message))
    (fun _ _ => Rejected (ErrorInstance message))
    (fun _ _ => Rejected (ErrorInstance message)).

Definition at_rest {St : Type} (v : St) : World St := mkWorld v 0 [] O.

(** The self-service view showing [l], nothing pending. *)
Definition showing (l : list ActiveSession) : ActiveSessionsManagement.View :=
  ActiveSessionsManagement.mkView l false None None
    ActiveSessionsManagement.closed.

(** The admin modal showing [l]. *)
Definition admin_showing (l : list ActiveSession) : AdminSessionsModal.View :=
  AdminSessionsModal.mkView l false None None.
End Examples.

(* ================================================================== *)
(** * Properties *)

(** ** Strings *)

Lemma append_eqb_cancel (p a b : string) :
  ((p +++ a) =? (p +++ b))%string = (a =? b)%string.
Proof.
  induction p as [|c p IH]; simpl.
  - reflexivity.
  - rewrite Ascii.eqb_refl. exact IH.
Qed.

Lemma truthy_Some (x : string) : truthy (Some x) = true <-> x <> ""%string.
Proof.
  unfold truthy. destruct (String.eqb_spec x ""); simpl; split; congruence.
Qed.

(** ** The sessions aimed at by "terminate all others" *)

Lemma others_spec (l : list ActiveSession) (s : ActiveSession) :
  In s (others l) <-> In s l /\ isCurrent s = false.
Proof.
  unfold others. rewrite filter_In.
  destruct (isCurrent s); simpl; intuition congruence.
Qed.

Lemma others_ids_spec (l : list ActiveSession) (id : string) :
  In id (map sessionId (others l)) <->
  exists s, In s l /\ isCurrent s = false /\ sessionId s = id.
Proof.
  rewrite in_map_iff. split.
  - intros (s & Hid & Hin). apply others_spec in Hin. exists s. tauto.
  - intros (s & Hin & Hcur & Hid). exists s. split; [exact Hid|].
    apply others_spec. tauto.
Qed.

(** ** The gateway *)

Section GatewayFacts.
Variable cfg : RuntimeConfig.
Variable St : Type.
Variable backend : Backend.
Variable w : World St.

Let prefix : string := SessionService.getPrefix cfg.

Lemma run_getActiveSessions :
  run backend (SessionService.getActiveSessions cfg) w =
  (w,
   [Logged LogLevel "Fetching active sessions:";
    Request GET (prefix +++ "/self/tokens/active") None;
    Paint (state w)]
   ++ match on_get backend (prefix +++ "/self/tokens/active") with
      | Resolved _ => []
      | Rejected _ => [Logged ErrorLevel "Error fetching active sessions:"]
      end,
   match on_get backend (prefix +++ "/self/tokens/active") with
   | Resolved response => Normal response
   | Rejected err => Threw err
   end).
Proof.
  unfold SessionService.getActiveSessions, prefix. cbn.
  destruct (on_get backend _); reflexivity.
Qed.

Lemma run_terminateSessions (tokenIds : list string) :
  run backend (SessionService.terminateSessions cfg tokenIds) w =
  (w,
   [Logged LogLevel "Terminating sessions:";
    Request POST (prefix +++ "/self/tokens/invalidate")
      (Some (body_tokenIds tokenIds));
    Paint (state w)]
   ++ match on_post backend (prefix +++ "/self/tokens/invalidate")
              (body_tokenIds tokenIds) with
      | Resolved _ => []
      | Rejected _ => [Logged ErrorLevel "Error terminating sessions:"]
      end,
   match on_post backend (prefix +++ "/self/tokens/invalidate")
           (body_tokenIds tokenIds) with
   | Resolved u => Normal u
   | Rejected err => Threw err
   end).
Proof.
  unfold SessionService.terminateSessions, prefix. cbn.
  destruct (on_post backend _ _); reflexivity.
Qed.

Lemma run_getAdminActiveSessions (username : string) :
  run backend (SessionService.getAdminActiveSessions cfg username) w =
  (w,
   [Logged LogLevel "Fetching active sessions for user:";
    Request POST (prefix +++ "/admin/tokens/active")
      (Some (body_username username));
    Paint (state w)]
   ++ match on_post_sessions backend (prefix +++ "/admin/tokens/active")
              (body_username username) with
      | Resolved _ => []
      | Rejected _ =>
          [Logged ErrorLevel
             ("Error fetching sessions for user " +++ username +++ ":")]
      end,
   match on_post_sessions backend (prefix +++ "/admin/tokens/active")
           (body_username username) with
   | Resolved response => Normal response
   | Rejected err => Threw err
   end).
Proof.
  unfold SessionService.getAdminActiveSessions, prefix. cbn.
  destruct (on_post_sessions backend _ _); reflexivity.
Qed.

Lemma run_terminateAdminSessions (username : string)
    (tokenIds : list string) :
  run backend (SessionService.terminateAdminSessions cfg username tokenIds) w =
  (w,
   [Logged LogLevel "Terminating sessions for user:";
    Request POST (prefix +++ "/admin/tokens/invalidate")
      (Some (body_username_tokenIds username tokenIds));
    Paint (state w)]
   ++ match on_post backend (prefix +++ "/admin/tokens/invalidate")
              (body_username_tokenIds username tokenIds) with
      | Resolved _ => []
      | Rejected _ =>
          [Logged ErrorLevel
             ("Error terminating sessions for user " +++ username +++ ":")]
      end,
   match on_post backend (prefix +++ "/admin/tokens/invalidate")
           (body_username_tokenIds username tokenIds) with
   | Resolved u => Normal u
   | Rejected err => Threw err
   end).
Proof.
  unfold SessionService.terminateAdminSessions, prefix. cbn.
  destruct (on_post backend _ _); reflexivity.
Qed.
End GatewayFacts.

(** C6.  Each of the four gateway operations completes exactly as its one
    transport call settles: when the call is rejected with the value [err]
    the operation throws that same [err] (nothing is translated or
    wrapped), and when it resolves the operation returns the resolved
    value.  The component state, the clock and the timers are untouched. *)
Theorem C6_gateway_propagates_transport_error
    (cfg : RuntimeConfig) (St : Type) (backend : Backend) (w : World St)
    (username : string) (tokenIds : list string) :
  let prefix := SessionService.getPrefix cfg in
  let outcome {X} (r : Settled X) : Completion X :=
    match r with Resolved x => Normal x | Rejected err => Threw err end in
  let result {A} (p : Prog St A) := (fst (fst (run backend p w)), snd (run backend p w)) in
  result (SessionService.getActiveSessions cfg)
    = (w, outcome (on_get backend (prefix +++ "/self/tokens/active")))
  /\ result (SessionService.terminateSessions cfg tokenIds)
    = (w, outcome (on_post backend (prefix +++ "/self/tokens/invalidate")
                     (body_tokenIds tokenIds)))
  /\ result (SessionService.getAdminActiveSessions cfg username)
    = (w, outcome (on_post_sessions backend (prefix +++ "/admin/tokens/active")
                     (body_username username)))
  /\ result (SessionService.terminateAdminSessions cfg username tokenIds)
    = (w, outcome (on_post backend (prefix +++ "/admin/tokens/invalidate")
                     (body_username_tokenIds username tokenIds))).
Proof.
  cbv beta zeta.
  rewrite run_getActiveSessions, run_terminateSessions,
    run_getAdminActiveSessions, run_terminateAdminSessions.
  repeat split.
Qed.

(** C8.  The prefix is the configured [REACT_APP_SESSION_API_PREFIX], and
    ["/sdp"] when that key is missing or null; each gateway operation sends
    exactly one request, to the prefix followed by its fixed suffix. *)
Theorem C8_prefix_configured_with_default
    (cfg : RuntimeConfig) (St : Type) (backend : Backend) (w : World St)
    (username : string) (tokenIds : list string) :
  let prefix := SessionService.getPrefix cfg in
  let sent {A} (p : Prog St A) := requests (snd (fst (run backend p w))) in
  prefix = match REACT_APP_SESSION_API_PREFIX cfg with
           | Present configured => configured
           | Missing | Null => "/sdp"%string
           end
  /\ sent (SessionService.getActiveSessions cfg)
     = [(GET, prefix +++ "/self/tokens/active", None)]
  /\ sent (SessionService.terminateSessions cfg tokenIds)
     = [(POST, prefix +++ "/self/tokens/invalidate",
         Some (body_tokenIds tokenIds))]
  /\ sent (SessionService.getAdminActiveSessions cfg username)
     = [(POST, prefix +++ "/admin/tokens/active",
         Some (body_username username))]
  /\ sent (SessionService.terminateAdminSessions cfg username tokenIds)
     = [(POST, prefix +++ "/admin/tokens/invalidate",
         Some (body_username_tokenIds username tokenIds))].
Proof.
  cbv beta zeta.
  rewrite run_getActiveSessions, run_terminateSessions,
    run_getAdminActiveSessions, run_terminateAdminSessions.
  cbn [fst snd app requests].
  split; [reflexivity|].
  destruct (on_get backend _), (on_post backend _ _),
    (on_post_sessions backend _ _), (on_post backend _ _);
    repeat split.
Qed.

(** ** Fetching in the self-service view *)

Section SelfFetch.
Import ActiveSessionsManagement Confirmation.
Variable cfg : RuntimeConfig.
Variable backend : Backend.

Let url : string := SessionService.getPrefix cfg +++ "/self/tokens/active".

(** A fetch, spelled out: the state it leaves and what it shows. *)
Lemma interaction_fetchSessions (w : World View) :
  interaction backend (fetchSessions cfg) w =
  (mkWorld
     match on_get backend url with
     | Resolved response =>
         mkView (array_or (sessions_field response) []) false None
           (success (state w)) (confirmDialog (state w))
     | Rejected err =>
         mkView (sessions (state w)) false
           (Some (message_or err "Failed to fetch active sessions"))
           (success (state w)) (confirmDialog (state w))
     end
     (clock w) (timers w) (next_timer w),
   [Logged LogLevel "Fetching active sessions:";
    Request GET url None;
    Paint (fetching (state w))]
   ++ match on_get backend url with
      | Resolved _ => []
      | Rejected _ =>
          [Logged ErrorLevel "Error fetching active sessions:";
           Logged ErrorLevel "Error fetching sessions:"]
      end).
Proof.
  unfold interaction, fetchSessions, url. cbn.
  destruct (on_get backend _); reflexivity.
Qed.

Lemma fetchSessions_keeps_dialog (w : World View) :
  confirmDialog (state (fst (interaction backend (fetchSessions cfg) w)))
  = confirmDialog (state w).
Proof.
  rewrite interaction_fetchSessions. cbn.
  destruct (on_get backend url); reflexivity.
Qed.

Lemma fetchSessions_keeps_host (w : World View) :
  let w' := fst (interaction backend (fetchSessions cfg) w) in
  clock w' = clock w /\ timers w' = timers w /\ next_timer w' = next_timer w.
Proof. rewrite interaction_fetchSessions. cbn. auto. Qed.

Lemma fetchSessions_requests (w : World View) :
  requests (snd (interaction backend (fetchSessions cfg) w))
  = [(GET, url, None)].
Proof.
  rewrite interaction_fetchSessions. cbn.
  destruct (on_get backend url); reflexivity.
Qed.

(** The spinner is on screen only over an empty list. *)
Lemma showsSpinner_empty (v : View) :
  showsSpinner v = true -> loading v = true /\ sessions v = [].
Proof.
  unfold showsSpinner. intros H. apply andb_prop in H as [Hl He].
  split; [exact Hl|]. destruct (sessions v); [reflexivity|discriminate].
Qed.

(** C4.  When the gateway call of a fetch fails with [err], the fetch
    ends in the error state (the message of [err], not loading) over the
    session list it started with; while the call is in flight that same
    list is on screen, and the progress indicator replaces it exactly
    when it is empty.  In no state is the indicator shown over a
    non-empty list. *)
Theorem C4_failed_fetch_keeps_list (w : World View) (err : Thrown) :
  on_get backend url = Rejected err ->
  let after := state (fst (interaction backend (fetchSessions cfg) w)) in
  let shown := paints (snd (interaction backend (fetchSessions cfg) w)) in
  sessions after = sessions (state w)
  /\ error after = Some (message_or err "Failed to fetch active sessions")
  /\ loading after = false
  /\ shown = [fetching (state w)]
  /\ (forall v, In v shown ->
        sessions v = sessions (state w)
        /\ (showsSpinner v = true <-> sessions (state w) = []))
  /\ (forall v, showsSpinner v = true -> sessions v = []).
Proof.
  intros Hfail. cbv zeta. rewrite interaction_fetchSessions, Hfail. cbn.
  do 4 (split; [reflexivity|]). split.
  - intros v [<-|[]]. split; [reflexivity|].
    unfold showsSpinner, fetching. cbn.
    destruct (sessions (state w)); cbn; split; congruence.
  - intros v Hv. apply showsSpinner_empty in Hv. tauto.
Qed.
End SelfFetch.

(** ** Terminating in the self-service view *)

Section SelfTerminate.
Import ActiveSessionsManagement Confirmation.
Variable cfg : RuntimeConfig.
Variable backend : Backend.

Lemma interaction_handleTerminateSession (sessionId : string)
    (w : World View) :
  let r := interaction backend (handleTerminateSession cfg sessionId) w in
  fst r = mkWorld
            (terminated cfg backend (state w) [sessionId]
               "Session terminated successfully"
               "Failed to terminate session")
            (clock w) (timers w) (next_timer w)
  /\ requests (snd r) = termination_requests cfg backend [sessionId].
Proof.
  unfold interaction, handleTerminateSession, terminated,
    termination_requests, invalidate_own.
  cbn.
  destruct (on_post backend _ _); cbn.
  - destruct (on_get backend _); cbn; split; reflexivity.
  - split; reflexivity.
Qed.

Lemma interaction_handleTerminateAllOtherSessions (v : View)
    (w : World View) :
  let r := interaction backend (handleTerminateAllOtherSessions cfg v) w in
  let tokenIds := map sessionId (others (sessions v)) in
  match others (sessions v) with
  | [] =>
      r = (mkWorld
             (mkView (sessions (state w)) (loading (state w))
                (Some "No other sessions to terminate"%string)
                (success (state w)) closed)
             (clock w) (timers w) (next_timer w),
           [])
  | _ :: _ =>
      fst r = mkWorld
                (terminated cfg backend (state w) tokenIds
                   "All other sessions terminated successfully"
                   "Failed to terminate all sessions")
                (clock w) (timers w) (next_timer w)
      /\ requests (snd r) = termination_requests cfg backend tokenIds
  end.
Proof.
  unfold interaction, handleTerminateAllOtherSessions, terminated,
    termination_requests, invalidate_own.
  destruct (others (sessions v)) as [|s l]; cbn.
  - reflexivity.
  - destruct (on_post backend _ _); cbn.
    + destruct (on_get backend _); cbn; split; reflexivity.
    + split; reflexivity.
Qed.

(** C10.  However an invocation of either termination handler ends (the
    gateway call succeeds, it fails, or "terminate all others" finds no
    other session and returns early), the confirmation state it leaves
    is [{ open: false, sessionId: null, isTerminateAll: false }]. *)
Theorem C10_termination_resets_confirmation (sessionId : string)
    (v : View) (w : World View) :
  confirmDialog
    (state (fst (interaction backend (handleTerminateSession cfg sessionId) w)))
  = mkConfirm false None false
  /\ confirmDialog
    (state (fst (interaction backend (handleTerminateAllOtherSessions cfg v) w)))
  = mkConfirm false None false.
Proof.
  split.
  - destruct (interaction_handleTerminateSession sessionId w) as [-> _].
    unfold terminated. cbn.
    destruct (on_post backend _ _); [destruct (on_get backend _)|];
      reflexivity.
  - pose proof (interaction_handleTerminateAllOtherSessions v w) as H.
    cbv zeta in H. destruct (others (sessions v)).
    + rewrite H. reflexivity.
    + destruct H as [-> _]. unfold terminated. cbn.
      destruct (on_post backend _ _); [destruct (on_get backend _)|];
        reflexivity.
Qed.

(** X2.  A termination that the backend accepts is followed by a fetch,
    and the list shown afterwards is the one that fetch returned (nothing
    is patched locally); a termination that fails sends nothing further,
    keeps the list and shows the failure's message. *)
Theorem termination_refetches_on_success (sessionId : string)
    (w : World View) :
  let prefix := SessionService.getPrefix cfg in
  let r := interaction backend (handleTerminateSession cfg sessionId) w in
  match on_post backend (prefix +++ "/self/tokens/invalidate")
          (body_tokenIds [sessionId]) with
  | Resolved _ =>
      requests (snd r)
      = [invalidate_own cfg [sessionId];
         (GET, prefix +++ "/self/tokens/active", None)]
      /\ success (state (fst r)) = Some "Session terminated successfully"%string
      /\ sessions (state (fst r))
         = match on_get backend (prefix +++ "/self/tokens/active") with
           | Resolved response => array_or (sessions_field response) []
           | Rejected _ => sessions (state w)
           end
  | Rejected err =>
      requests (snd r) = [invalidate_own cfg [sessionId]]
      /\ error (state (fst r))
         = Some (message_or err "Failed to terminate session")
      /\ sessions (state (fst r)) = sessions (state w)
  end.
Proof.
  cbv zeta.
  destruct (interaction_handleTerminateSession sessionId w) as [-> ->].
  unfold terminated, termination_requests. cbn.
  destruct (on_post backend _ _).
  - destruct (on_get backend _); repeat split.
  - repeat split.
Qed.
End SelfTerminate.

(** ** The affirmative button of the self-service view *)

Section SelfConfirm.
Import ActiveSessionsManagement Confirmation.
Variable cfg : RuntimeConfig.
Variable backend : Backend.

Lemma invalidations_termination (tokenIds : list string) :
  filter (is_invalidate cfg) (termination_requests cfg backend tokenIds)
  = [invalidate_own cfg tokenIds].
Proof.
  unfold termination_requests, invalidate_own. cbn.
  rewrite String.eqb_refl. cbn.
  destruct (on_post backend _ _); reflexivity.
Qed.

(** "Terminate" with a single session pending. *)
Lemma act_confirm_single (w : World View) (sessionId : string) :
  confirmDialog (state w) = mkConfirm true (Some sessionId) false ->
  sessionId <> ""%string ->
  let r := act cfg backend ClickTerminate w in
  fst r = mkWorld
            (terminated cfg backend (state w) [sessionId]
               "Session terminated successfully"
               "Failed to terminate session")
            (clock w) (timers w) (next_timer w)
  /\ requests (snd r) = termination_requests cfg backend [sessionId].
Proof.
  intros Hd Hne. apply truthy_Some in Hne.
  unfold act, dispatch, offered, handler, handleConfirm.
  rewrite Hd. cbn [open isTerminateAll dialog_sessionId]. rewrite Hne.
  unfold interaction, handleTerminateSession, terminated,
    termination_requests, invalidate_own.
  cbn.
  destruct (on_post backend _ _); cbn.
  - destruct (on_get backend _); cbn; split; reflexivity.
  - split; reflexivity.
Qed.

(** "Terminate" with "all others" pending. *)
Lemma act_confirm_all (w : World View) (pending : option string) :
  confirmDialog (state w) = mkConfirm true pending true ->
  let r := act cfg backend ClickTerminate w in
  let tokenIds := map sessionId (others (sessions (state w))) in
  match others (sessions (state w)) with
  | [] =>
      r = (mkWorld
             (mkView (sessions (state w)) (loading (state w))
                (Some "No other sessions to terminate"%string)
                (success (state w)) closed)
             (clock w) (timers w) (next_timer w),
           [])
  | _ :: _ =>
      fst r = mkWorld
                (terminated cfg backend (state w) tokenIds
                   "All other sessions terminated successfully"
                   "Failed to terminate all sessions")
                (clock w) (timers w) (next_timer w)
      /\ requests (snd r) = termination_requests cfg backend tokenIds
  end.
Proof.
  intros Hd.
  unfold act, dispatch, offered, handler, handleConfirm.
  rewrite Hd. cbn [open isTerminateAll dialog_sessionId].
  unfold interaction, handleTerminateAllOtherSessions, terminated,
    termination_requests, invalidate_own.
  destruct (others (sessions (state w))) as [|s l]; cbn.
  - reflexivity.
  - destruct (on_post backend _ _); cbn.
    + destruct (on_get backend _); cbn; split; reflexivity.
    + split; reflexivity.
Qed.

(** C5.  Confirming "terminate all others" while no held session is
    non-current sends nothing at all: the interaction observes no
    request (nor anything else), the error message
    "No other sessions to terminate" is set locally, and the list is
    left as it was. *)
Theorem C5_no_other_sessions_is_local (w : World View)
    (pending : option string) :
  confirmDialog (state w) = mkConfirm true pending true ->
  others (sessions (state w)) = [] ->
  let r := act cfg backend ClickTerminate w in
  snd r = []
  /\ requests (snd r) = []
  /\ error (state (fst r)) = Some "No other sessions to terminate"%string
  /\ sessions (state (fst r)) = sessions (state w).
Proof.
  intros Hd Hnone. pose proof (act_confirm_all w pending Hd) as H.
  cbv zeta in *. rewrite Hnone in H. rewrite H. cbn. auto.
Qed.

End SelfConfirm.

(** ** Request, refresh, resolve *)

Section SelfDialog.
Import ActiveSessionsManagement Confirmation.
Variable cfg : RuntimeConfig.
Variable backend : Backend.

(** Clicking the delete icon of a card only records the card's id. *)
Lemma act_ClickDelete (w : World View) (card : nat) (s : ActiveSession) :
  offered (state w) (ClickDelete card) = true ->
  nth_error (sessions (state w)) card = Some s ->
  act cfg backend (ClickDelete card) w =
  (mkWorld
     (mkView (sessions (state w)) (loading (state w)) (error (state w))
        (success (state w)) (mkConfirm true (Some (sessionId s)) false))
     (clock w) (timers w) (next_timer w),
   []).
Proof.
  intros Hoff Hnth. unfold act, dispatch. rewrite Hoff.
  unfold handler. rewrite Hnth. reflexivity.
Qed.

(** Clicking "Terminate All Other Sessions" only records the intent. *)
Lemma act_ClickTerminateAll (w : World View) :
  offered (state w) ClickTerminateAll = true ->
  act cfg backend ClickTerminateAll w =
  (mkWorld
     (mkView (sessions (state w)) (loading (state w)) (error (state w))
        (success (state w)) (mkConfirm true None true))
     (clock w) (timers w) (next_timer w),
   []).
Proof.
  intros Hoff. unfold act, dispatch. rewrite Hoff. reflexivity.
Qed.

(** "Cancel" and dismissing the dialog drop what was pending. *)
Lemma act_dismiss (w : World View) (a : Action) :
  a = ClickCancel \/ a = DismissDialog ->
  open (confirmDialog (state w)) = true ->
  act cfg backend a w =
  (mkWorld
     (mkView (sessions (state w)) (loading (state w)) (error (state w))
        (success (state w)) closed)
     (clock w) (timers w) (next_timer w),
   []).
Proof.
  intros [-> | ->] Hopen; unfold act, dispatch, offered; rewrite Hopen;
    reflexivity.
Qed.

Lemma refreshed_keeps_dialog (refreshes : list Backend) (w : World View) :
  confirmDialog (state (refreshed cfg refreshes w)) = confirmDialog (state w).
Proof.
  revert w. induction refreshes as [|b bs IH]; intros w; cbn.
  - reflexivity.
  - unfold refreshed in IH. rewrite IH. apply fetchSessions_keeps_dialog.
Qed.

Lemma requested_ClickDelete (refreshes : list Backend) (w : World View)
    (card : nat) (s : ActiveSession) :
  offered (state w) (ClickDelete card) = true ->
  nth_error (sessions (state w)) card = Some s ->
  confirmDialog (state (requested cfg backend (ClickDelete card) refreshes w))
  = mkConfirm true (Some (sessionId s)) false.
Proof.
  intros Hoff Hnth. unfold requested.
  rewrite refreshed_keeps_dialog, (act_ClickDelete w card s Hoff Hnth).
  reflexivity.
Qed.

Lemma requested_ClickTerminateAll (refreshes : list Backend)
    (w : World View) :
  offered (state w) ClickTerminateAll = true ->
  confirmDialog (state (requested cfg backend ClickTerminateAll refreshes w))
  = mkConfirm true None true.
Proof.
  intros Hoff. unfold requested.
  rewrite refreshed_keeps_dialog, (act_ClickTerminateAll w Hoff).
  reflexivity.
Qed.

(** C2, amended.  After a destructive control was clicked in [w] and the
    list was refreshed any number of times while the dialog was open:
    confirming a single-session termination (a non-empty id) sends one
    invalidate call for exactly the id captured at the click; confirming
    "terminate all others" sends the ids of the sessions that are not
    current in the list held when the button is pressed (one call, or
    none when there is no such session); "Cancel" and dismissal discard
    what was pending and send nothing. *)
Theorem C2_resolution_of_pending_confirmation
    (refreshes : list Backend) (w : World View) :
  let at_resolve request := requested cfg backend request refreshes w in
  let sent request :=
    invalidations cfg
      (snd (act cfg backend ClickTerminate (at_resolve request))) in
  (forall card s,
      offered (state w) (ClickDelete card) = true ->
      nth_error (sessions (state w)) card = Some s ->
      sessionId s <> ""%string ->
      sent (ClickDelete card)
      = [invalidate_own cfg (captured (state w) (ClickDelete card))]
      /\ captured (state w) (ClickDelete card) = [sessionId s])
  /\ (offered (state w) ClickTerminateAll = true ->
      let held := sessions (state (at_resolve ClickTerminateAll)) in
      sent ClickTerminateAll
      = match others held with
        | [] => []
        | _ :: _ => [invalidate_own cfg (map sessionId (others held))]
        end)
  /\ (forall request dismiss,
        offered (state w) request = true ->
        request = ClickTerminateAll \/ (exists card, request = ClickDelete card) ->
        dismiss = ClickCancel \/ dismiss = DismissDialog ->
        snd (act cfg backend dismiss (at_resolve request)) = []
        /\ confirmDialog
             (state (fst (act cfg backend dismiss (at_resolve request))))
           = closed).
Proof.
  cbv zeta. unfold invalidations. split; [|split].
  - intros card s Hoff Hnth Hne.
    pose proof (requested_ClickDelete refreshes w card s Hoff Hnth) as Hd.
    destruct (act_confirm_single cfg backend _ _ Hd Hne) as [_ ->].
    unfold captured. rewrite Hnth.
    split; [apply invalidations_termination | reflexivity].
  - intros Hoff.
    pose proof (requested_ClickTerminateAll refreshes w Hoff) as Hd.
    pose proof (act_confirm_all cfg backend _ _ Hd) as H. cbv zeta in H.
    destruct (others (sessions (state (requested _ _ _ _ w)))).
    + rewrite H. reflexivity.
    + destruct H as [_ ->]. apply invalidations_termination.
  - intros request dismiss Hoff Hreq Hdis.
    assert (Hopen : open (confirmDialog
                            (state (requested cfg backend request refreshes w)))
                    = true).
    { destruct Hreq as [-> | [card ->]].
      - rewrite (requested_ClickTerminateAll refreshes w Hoff). reflexivity.
      - destruct (nth_error (sessions (state w)) card) as [s|] eqn:Hnth.
        + rewrite (requested_ClickDelete refreshes w card s Hoff Hnth).
          reflexivity.
        + unfold offered in Hoff. rewrite Hnth, andb_false_r in Hoff.
          discriminate. }
    rewrite (act_dismiss _ dismiss Hdis Hopen). split; reflexivity.
Qed.
End SelfDialog.

(** ** The confirmation gate of the self-service view *)

Section SelfGate.
Import ActiveSessionsManagement Confirmation.
Variable cfg : RuntimeConfig.
Variable backend : Backend.

(** X1.  In the self-service view only the affirmative button of an open
    dialog sends an invalidate call, and it sends at most one: no other
    user action reaches [SessionService.terminateSessions]. *)
Theorem self_invalidate_only_on_confirm (a : Action) (w : World View) :
  let sent := invalidations cfg (snd (act cfg backend a w)) in
  (length sent <= 1)%nat
  /\ (sent <> [] ->
      a = ClickTerminate /\ open (confirmDialog (state w)) = true).
Proof.
  cbv zeta. unfold invalidations.
  assert (Hnone : forall l : list (Obs View),
             l = [] -> (length (filter (is_invalidate cfg) (requests l)) <= 1)%nat
             /\ (filter (is_invalidate cfg) (requests l) <> [] ->
                 a = ClickTerminate /\ open (confirmDialog (state w)) = true)).
  { intros l ->. cbn. split; [lia | congruence]. }
  destruct a; unfold act, dispatch;
    (destruct (offered (state w) _) eqn:Hoff; [|apply Hnone; reflexivity]).
  - apply Hnone. reflexivity.
  - unfold handler. rewrite fetchSessions_requests. cbn.
    split; [lia | congruence].
  - apply Hnone. reflexivity.
  - apply Hnone. reflexivity.
  - unfold handler. destruct (nth_error _ _); apply Hnone; reflexivity.
  - apply Hnone. reflexivity.
  - apply Hnone. reflexivity.
  - cbn in Hoff.
    destruct (confirmDialog (state w)) as [o pending all] eqn:Hd.
    cbn in Hoff. subst o.
    assert (Hact : interaction backend (handler cfg (state w) ClickTerminate) w
                   = act cfg backend ClickTerminate w).
    { unfold act, dispatch, offered. rewrite Hd. reflexivity. }
    rewrite Hact. clear Hact.
    destruct all.
    + pose proof (act_confirm_all cfg backend w pending Hd) as H.
      cbv zeta in H. destruct (others (sessions (state w))).
      * rewrite H. cbn. split; [lia | congruence].
      * destruct H as [_ ->]. rewrite invalidations_termination. cbn.
        split; [lia | auto].
    + destruct pending as [sid|].
      * destruct (String.eqb_spec sid "") as [-> | Hne].
        -- unfold act, dispatch, offered, handler, handleConfirm.
           rewrite Hd. cbn. split; [lia | congruence].
        -- destruct (act_confirm_single cfg backend w sid Hd Hne) as [_ ->].
           rewrite invalidations_termination. cbn. split; [lia | auto].
      * unfold act, dispatch, offered, handler, handleConfirm.
        rewrite Hd. cbn. split; [lia | congruence].
Qed.

(** A closed dialog opens only by a click on a destructive control. *)
Lemma dialog_opens_only_on_request (a : Action) (w : World View) :
  open (confirmDialog (state w)) = false ->
  open (confirmDialog (state (fst (act cfg backend a w)))) = true ->
  a = ClickTerminateAll \/ exists card, a = ClickDelete card.
Proof.
  intros Hclosed Hopen.
  destruct a; try (left; reflexivity); try (right; eexists; reflexivity);
    exfalso; revert Hopen; unfold act, dispatch, offered;
    try rewrite Hclosed;
    try (destruct (negb (loading (state w))));
    try (destruct (truthy _));
    unfold handler;
    try rewrite fetchSessions_keeps_dialog;
    cbn; rewrite ?Hclosed; discriminate.
Qed.

(** No user action touches the host's clock or timers: the refresh
    interval registered at mount stays as it is. *)
Lemma act_keeps_host (a : Action) (w : World View) :
  let w' := fst (act cfg backend a w) in
  clock w' = clock w /\ timers w' = timers w /\ next_timer w' = next_timer w.
Proof.
  cbv zeta.
  assert (Hsame : forall f : View -> View,
             clock (update f w) = clock w /\ timers (update f w) = timers w
             /\ next_timer (update f w) = next_timer w).
  { intros f. repeat split. }
  destruct a; unfold act, dispatch;
    (destruct (offered (state w) _) eqn:Hoff; [|repeat split]).
  - apply Hsame.
  - apply fetchSessions_keeps_host.
  - apply Hsame.
  - apply Hsame.
  - unfold handler. destruct (nth_error _ _); [apply Hsame | repeat split].
  - apply Hsame.
  - apply Hsame.
  - cbn in Hoff.
    destruct (confirmDialog (state w)) as [o pending all] eqn:Hd.
    cbn in Hoff. subst o.
    assert (Hact : interaction backend (handler cfg (state w) ClickTerminate) w
                   = act cfg backend ClickTerminate w).
    { unfold act, dispatch, offered. rewrite Hd. reflexivity. }
    rewrite Hact. clear Hact.
    destruct all.
    + pose proof (act_confirm_all cfg backend w pending Hd) as H.
      cbv zeta in H. destruct (others (sessions (state w))).
      * rewrite H. repeat split.
      * destruct H as [-> _]. repeat split.
    + destruct pending as [sid|].
      * destruct (String.eqb_spec sid "") as [-> | Hne].
        -- unfold act, dispatch, offered, handler, handleConfirm.
           rewrite Hd. repeat split.
        -- destruct (act_confirm_single cfg backend w sid Hd Hne) as [-> _].
           repeat split.
      * unfold act, dispatch, offered, handler, handleConfirm.
        rewrite Hd. repeat split.
Qed.
End SelfGate.

(** ** The admin view *)

Section AdminFacts.
Import AdminSessionsModal.
Variable cfg : RuntimeConfig.
Variable backend : Backend.

(** A fetch of the admin view, spelled out. *)
Lemma admin_fetchSessions_state (username : option string) (w : World View) :
  fst (interaction backend (fetchSessions cfg username) w) =
  match username with
  | Some u =>
      if truthy username then
        mkWorld
          match on_post_sessions backend
                  (SessionService.getPrefix cfg +++ "/admin/tokens/active")
                  (body_username u) with
          | Resolved response =>
              mkView (array_or (sessions_field response) []) false None
                (success (state w))
          | Rejected err =>
              mkView (sessions (state w)) false
                (Some (message_or err "Failed to fetch sessions"))
                (success (state w))
          end
          (clock w) (timers w) (next_timer w)
      else w
  | None => w
  end.
Proof.
  unfold interaction, fetchSessions, when_truthy.
  destruct username as [u|]; [|reflexivity].
  destruct (truthy (Some u)); [|reflexivity].
  cbn. destruct (on_post_sessions backend _ _); reflexivity.
Qed.

(** The delete icon of the admin view calls the gateway at once. *)
Lemma admin_delete_invalidates_at_once (username : string) (w : World View)
    (card : nat) (s : ActiveSession) :
  username <> ""%string ->
  offered true (state w) (ClickDelete card) = true ->
  nth_error (sessions (state w)) card = Some s ->
  invalidations cfg
    (snd (act cfg true (Some username) backend (ClickDelete card) w))
  = [invalidate_for_user cfg username [sessionId s]].
Proof.
  intros Hne Hoff Hnth. apply truthy_Some in Hne.
  unfold act, dispatch. rewrite Hoff. unfold handler. rewrite Hnth.
  unfold interaction, handleTerminate, fetchSessions, when_truthy.
  rewrite Hne. unfold invalidations, invalidate_for_user. cbn.
  destruct (on_post backend _ _); cbn.
  - destruct (on_post_sessions backend _ _); cbn;
      rewrite !append_eqb_cancel; reflexivity.
  - rewrite !append_eqb_cancel. reflexivity.
Qed.
End AdminFacts.

(** C9.  After a fetch the stored list is the [sessions] array of a
    successful response, the empty list when that field is missing or
    null, and the list held before when the call failed; in the admin
    view the same holds when a user is named, and without one nothing is
    fetched and the list stays. *)
Theorem C9_fetched_list_is_array (cfg : RuntimeConfig) (backend : Backend)
    (username : option string)
    (self : World ActiveSessionsManagement.View)
    (admin : World AdminSessionsModal.View) :
  let prefix := SessionService.getPrefix cfg in
  let stored (held : list ActiveSession)
      (outcome : Settled SessionsResponse) : list ActiveSession :=
    match outcome with
    | Resolved response =>
        match sessions_field response with
        | Present array => array
        | Missing | Null => []
        end
    | Rejected _ => held
    end in
  ActiveSessionsManagement.sessions
    (state (fst (interaction backend
                   (ActiveSessionsManagement.fetchSessions cfg) self)))
  = stored (ActiveSessionsManagement.sessions (state self))
      (on_get backend (prefix +++ "/self/tokens/active"))
  /\ AdminSessionsModal.sessions
       (state (fst (interaction backend
                      (AdminSessionsModal.fetchSessions cfg username) admin)))
     = match username with
       | Some u =>
           if truthy username
           then stored (AdminSessionsModal.sessions (state admin))
                  (on_post_sessions backend (prefix +++ "/admin/tokens/active")
                     (body_username u))
           else AdminSessionsModal.sessions (state admin)
       | None => AdminSessionsModal.sessions (state admin)
       end.
Proof.
  cbv zeta. split.
  - rewrite interaction_fetchSessions. cbn.
    destruct (on_get backend _) as [response|err]; [|reflexivity].
    destruct (sessions_field response); reflexivity.
  - rewrite admin_fetchSessions_state.
    destruct username as [u|]; [|reflexivity].
    destruct (truthy (Some u)); [|reflexivity].
    cbn. destruct (on_post_sessions backend _ _) as [response|err];
      [|reflexivity].
    destruct (sessions_field response); reflexivity.
Qed.

(** ** The refresh timer *)

Section RefreshTimer.
Import ActiveSessionsManagement SelfServiceLifecycle.
Variable cfg : RuntimeConfig.
Variable backend : Backend.

Let url : string := SessionService.getPrefix cfg +++ "/self/tokens/active".

(** Mounting at clock value [now]: one fetch, and one interval of
    [AUTO_REFRESH_INTERVAL] whose callback is [fetchSessions]. *)
Lemma mount_spec (now : Z) :
  let m := fst (mount cfg backend now) in
  intervalId m = Some O
  /\ clock (world m) = now
  /\ timers (world m)
     = [mkTimer O AUTO_REFRESH_INTERVAL (now + AUTO_REFRESH_INTERVAL)
          (fetchSessions cfg)]
  /\ requests (snd (mount cfg backend now)) = [(GET, url, None)].
Proof.
  unfold mount, effect, url. cbn.
  destruct (on_get backend _); cbn; repeat split.
Qed.

(** With only the view's interval registered and due at [due], moving
    the clock to a [target] before [due] runs nothing. *)
Lemma advance_before_due (fuel : nat) (target : Z) (w : World View)
    (t : Timer View) :
  timers w = [t] -> (target < due t)%Z ->
  advance backend (Datatypes.S fuel) target w = (set_clock target w, []).
Proof.
  intros Ht Hlt. cbn. rewrite Ht. unfold next_due. cbn.
  apply Z.leb_gt in Hlt. rewrite Hlt. reflexivity.
Qed.



End RefreshTimer.

(* ================================================================== *)
(** * Concrete runs *)

Section ConcreteRuns.
Import Examples.

(** The services' own tests, replayed: the default prefix, the paths and
    bodies of the four requests, and a rejection that comes back as it
    was thrown. *)
Example test_getActiveSessions_path :
  requests (snd (fst (run (listing [session_1])
                        (SessionService.getActiveSessions cfg_default)
                        (at_rest tt))))
  = [(GET, "/sdp/self/tokens/active"%string, None)].
Proof. reflexivity. Qed.

Example test_getActiveSessions_network_error :
  snd (run (failing "Network error")
         (SessionService.getActiveSessions cfg_default) (at_rest tt))
  = Threw (ErrorInstance "Network error").
Proof. reflexivity. Qed.

Example test_terminateSessions_payload :
  requests (snd (fst (run (listing [])
                        (SessionService.terminateSessions cfg_default
                           ["token-1"; "token-2"]%string)
                        (at_rest tt))))
  = [(POST, "/sdp/self/tokens/invalidate"%string,
      Some (body_tokenIds ["token-1"; "token-2"]%string))].
Proof. reflexivity. Qed.

Example test_terminateAdminSessions_payload :
  requests (snd (fst (run (listing [])
                        (SessionService.terminateAdminSessions cfg_default
                           "testuser" ["token-3"; "token-4"]%string)
                        (at_rest tt))))
  = [(POST, "/sdp/admin/tokens/invalidate"%string,
      Some (body_username_tokenIds "testuser"
              ["token-3"; "token-4"]%string))].
Proof. reflexivity. Qed.

(** A configured prefix replaces the default; the empty string is a
    configured prefix too. *)
Example configured_prefix :
  SessionService.getPrefix (mkConfig (Present "/auth"%string)) = "/auth"%string
  /\ SessionService.getPrefix (mkConfig (Present ""%string)) = ""%string
  /\ SessionService.getPrefix (mkConfig Null) = "/sdp"%string
  /\ SessionService.getPrefix (mkConfig Missing) = "/sdp"%string.
Proof. repeat split. Qed.

(** The specification's scenario: the first fetch returns session-1
    (current) and session-2; the user clicks the delete icon of
    session-2 and confirms; invalidate is called with [session-2], the
    list is fetched again and now holds session-1 alone, and the success
    message is shown. *)
Example scenario_terminate_session_2 :
  let before := listing [session_1; session_2] in
  let after := listing [session_1] in
  let m0 := fst (SelfServiceLifecycle.mount cfg_default before 0) in
  let m1 := fst (SelfServiceLifecycle.user cfg_default before
                   (ActiveSessionsManagement.ClickDelete 1) m0) in
  let r := SelfServiceLifecycle.user cfg_default after
             ActiveSessionsManagement.ClickTerminate m1 in
  ActiveSessionsManagement.sessions (state (SelfServiceLifecycle.world m0))
  = [session_1; session_2]
  /\ requests (snd (SelfServiceLifecycle.user cfg_default before
                      (ActiveSessionsManagement.ClickDelete 1) m0)) = []
  /\ requests (snd r)
     = [invalidate_own cfg_default ["session-2"%string];
        (GET, "/sdp/self/tokens/active"%string, None)]
  /\ ActiveSessionsManagement.sessions
       (state (SelfServiceLifecycle.world (fst r))) = [session_1]
  /\ ActiveSessionsManagement.success
       (state (SelfServiceLifecycle.world (fst r)))
     = Some "Session terminated successfully"%string.
Proof. cbv zeta. repeat split. Qed.

(** A success response without a [sessions] field, or with [null] there,
    leaves the empty list. *)
Example malformed_response_gives_empty_list :
  let fetched response :=
    ActiveSessionsManagement.sessions
      (state (fst (interaction (answering response)
                     (ActiveSessionsManagement.fetchSessions cfg_default)
                     (at_rest (showing [session_1; session_2]))))) in
  fetched (mkResponse Missing 0) = []
  /\ fetched (mkResponse Null 0) = []
  /\ fetched (mkResponse (Present [session_3]) 1) = [session_3].
Proof. cbv zeta. repeat split. Qed.

(** A pending id that is the empty string is falsy for [handleConfirm]:
    the affirmative button then does nothing, and the dialog stays. *)
Example empty_id_is_skipped :
  let w := at_rest
             (ActiveSessionsManagement.mkView [session_1] false None None
                (ActiveSessionsManagement.mkConfirm true (Some ""%string) false)) in
  ActiveSessionsManagement.act cfg_default (listing [session_1])
    ActiveSessionsManagement.ClickTerminate w
  = (w, []).
Proof. reflexivity. Qed.
End ConcreteRuns.

(** C1, at the failing input.  The admin modal shows two sessions of
    "alice"; its delete icon on the first card is offered, and that one
    click sends the invalidate call for that session (followed by the
    refresh).  No confirmation step stands between the click and the
    call. *)
Theorem C1_admin_delete_sends_invalidate_at_once :
  let w := Examples.at_rest
             (Examples.admin_showing [Examples.session_2; Examples.session_3]) in
  let one_click :=
    AdminSessionsModal.act Examples.cfg_default true (Some "alice"%string)
      (Examples.listing [Examples.session_3])
      (AdminSessionsModal.ClickDelete 0) w in
  AdminSessionsModal.offered true (state w) (AdminSessionsModal.ClickDelete 0)
  = true
  /\ requests (snd one_click)
     = [invalidate_for_user Examples.cfg_default "alice" ["session-2"%string];
        (POST, "/sdp/admin/tokens/active"%string,
         Some (body_username "alice"))]
  /\ invalidations Examples.cfg_default (snd one_click)
     = [invalidate_for_user Examples.cfg_default "alice" ["session-2"%string]]
  /\ AdminSessionsModal.sessions (state (fst one_click)) = [Examples.session_3].
Proof. cbv zeta. repeat split. Qed.

(** C2 as stated fails: "terminate all others" is requested while
    session-2 is the only other session; the list is refreshed and now
    holds session-3 instead; the confirmation then invalidates session-3,
    not the session-2 that was on screen when the dialog opened. *)
Lemma C2_counterexample_targets_rederived :
  ~ Confirmation.resolves_with_captured_targets Examples.cfg_default
      (Examples.listing [Examples.session_1; Examples.session_3])
      ActiveSessionsManagement.ClickTerminateAll
      [Examples.listing [Examples.session_1; Examples.session_3]]
      (Examples.at_rest
         (Examples.showing [Examples.session_1; Examples.session_2])).
Proof.
  unfold Confirmation.resolves_with_captured_targets. intros H.
  vm_compute in H. discriminate H.
Qed.

(** The amended C2 on that same run, and on a single-session request
    whose session left the list before the confirmation. *)
Lemma C2_witness_refreshed_list :
  let cfg := Examples.cfg_default in
  let backend := Examples.listing [Examples.session_1; Examples.session_3] in
  let w := Examples.at_rest
             (Examples.showing [Examples.session_1; Examples.session_2]) in
  let sent request :=
    invalidations cfg
      (snd (ActiveSessionsManagement.act cfg backend
              ActiveSessionsManagement.ClickTerminate
              (Confirmation.requested cfg backend request [backend] w))) in
  sent (ActiveSessionsManagement.ClickDelete 1)
  = [invalidate_own cfg ["session-2"%string]]
  /\ sent ActiveSessionsManagement.ClickTerminateAll
     = [invalidate_own cfg ["session-3"%string]]
  /\ snd (ActiveSessionsManagement.act cfg backend
            ActiveSessionsManagement.ClickCancel
            (Confirmation.requested cfg backend
               ActiveSessionsManagement.ClickTerminateAll [backend] w))
     = [].
Proof.
  cbv zeta.
  destruct (C2_resolution_of_pending_confirmation Examples.cfg_default
              (Examples.listing [Examples.session_1; Examples.session_3])
              [Examples.listing [Examples.session_1; Examples.session_3]]
              (Examples.at_rest
                 (Examples.showing [Examples.session_1; Examples.session_2])))
    as (Hone & Hall & Hdismiss).
  split; [|split].
  - refine (proj1 (Hone 1%nat Examples.session_2 eq_refl eq_refl _)).
    discriminate.
  - exact (Hall eq_refl).
  - exact (proj1 (Hdismiss ActiveSessionsManagement.ClickTerminateAll
                    ActiveSessionsManagement.ClickCancel eq_refl
                    (or_introl eq_refl) (or_introl eq_refl))).
Defined.


(** C4 on the specification's scenario: the fetch rejects with
    "Network error" while two sessions are on screen. *)
Lemma C4_witness_network_error :
  let w := Examples.at_rest
             (Examples.showing [Examples.session_1; Examples.session_2]) in
  let r := interaction (Examples.failing "Network error")
             (ActiveSessionsManagement.fetchSessions Examples.cfg_default) w in
  ActiveSessionsManagement.sessions (state (fst r))
  = [Examples.session_1; Examples.session_2]
  /\ ActiveSessionsManagement.error (state (fst r))
     = Some "Network error"%string
  /\ ActiveSessionsManagement.loading (state (fst r)) = false.
Proof.
  cbv zeta.
  destruct (C4_failed_fetch_keeps_list Examples.cfg_default
              (Examples.failing "Network error")
              (Examples.at_rest
                 (Examples.showing [Examples.session_1; Examples.session_2]))
              (ErrorInstance "Network error") eq_refl)
    as (Hlist & Herror & Hloading & _).
  split; [exact Hlist | split; [exact Herror | exact Hloading]].
Defined.

(** C5 on a view that holds only the current session when the open
    "terminate all others" dialog is confirmed. *)
Lemma C5_witness_only_current_session :
  let w := Examples.at_rest
             (ActiveSessionsManagement.mkView [Examples.session_1] false
                None None (ActiveSessionsManagement.mkConfirm true None true)) in
  let r := ActiveSessionsManagement.act Examples.cfg_default
             (Examples.listing [Examples.session_1])
             ActiveSessionsManagement.ClickTerminate w in
  requests (snd r) = []
  /\ ActiveSessionsManagement.error (state (fst r))
     = Some "No other sessions to terminate"%string.
Proof.
  cbv zeta.
  destruct (C5_no_other_sessions_is_local Examples.cfg_default
              (Examples.listing [Examples.session_1])
              (Examples.at_rest
                 (ActiveSessionsManagement.mkView [Examples.session_1] false
                    None None
                    (ActiveSessionsManagement.mkConfirm true None true)))
              None eq_refl eq_refl)
    as (_ & Hrequests & Herror & _).
  split; [exact Hrequests | exact Herror].
Defined.

(* ================================================================== *)
(** * Further properties *)

(** ** The cadence of the refresh *)

Lemma requests_app {St : Type} (l1 l2 : list (Obs St)) :
  requests (l1 ++ l2) = requests l1 ++ requests l2.
Proof.
  induction l1 as [|o l1 IH]; [reflexivity|].
  destruct o; cbn; rewrite IH; reflexivity.
Qed.

Section RefreshCadence.
Import ActiveSessionsManagement SelfServiceLifecycle SelfServiceScript.
Variable cfg : RuntimeConfig.

Let url : string := SessionService.getPrefix cfg +++ "/self/tokens/active".
Let interval (id : nat) (d : Z) : Timer View :=
  mkTimer id AUTO_REFRESH_INTERVAL d (fetchSessions cfg).

(** [fires d target] is the one count [n] for which the [n]-th firing is
    the last that is due by [target]. *)
Lemma fires_bounds (d target : Z) :
  (target < d + Z.of_nat (fires d target) * AUTO_REFRESH_INTERVAL)%Z
  /\ (fires d target = O
      \/ (d + (Z.of_nat (fires d target) - 1) * AUTO_REFRESH_INTERVAL
          <= target)%Z).
Proof.
  unfold fires, AUTO_REFRESH_INTERVAL.
  destruct (Z.leb_spec d target) as [Hle | Hgt].
  - assert (Hq : (0 <= (target - d) / 30000)%Z)
      by (apply Z.div_pos; lia).
    pose proof (Z.mul_div_le (target - d) 30000 ltac:(lia)) as Hlo.
    pose proof (Z.mul_succ_div_gt (target - d) 30000 ltac:(lia)) as Hhi.
    rewrite Nat2Z.inj_add, Z2Nat.id by exact Hq.
    split; [|right]; cbn [Z.of_nat Pos.of_succ_nat]; lia.
  - cbn. split; [lia | left; reflexivity].
Qed.

Lemma fires_unique (d target : Z) (n : nat) :
  (target < d + Z.of_nat n * AUTO_REFRESH_INTERVAL)%Z ->
  n = O \/ (d + (Z.of_nat n - 1) * AUTO_REFRESH_INTERVAL <= target)%Z ->
  n = fires d target.
Proof.
  intros Hhi Hlo. destruct (fires_bounds d target) as [Hhi' Hlo'].
  unfold AUTO_REFRESH_INTERVAL in *.
  destruct Hlo as [-> | Hlo], Hlo' as [Hz | Hlo']; try rewrite Hz in *; lia.
Qed.

(** Right after mounting, [ms] milliseconds hold [ms / 30000] firings. *)
Lemma fires_after_mount (now ms : Z) :
  (0 <= ms)%Z ->
  fires (now + AUTO_REFRESH_INTERVAL) (now + ms) = Z.to_nat (ms / 30000).
Proof.
  intros Hms. symmetry. apply fires_unique; unfold AUTO_REFRESH_INTERVAL.
  - rewrite Z2Nat.id by (apply Z.div_pos; lia).
    pose proof (Z.mul_succ_div_gt ms 30000 ltac:(lia)). lia.
  - destruct (Z.ltb_spec ms 30000) as [Hlt | Hge].
    + left. rewrite Z.div_small by lia. reflexivity.
    + right. rewrite Z2Nat.id by (apply Z.div_pos; lia).
      pose proof (Z.mul_div_le ms 30000 ltac:(lia)). lia.
Qed.

(** Splitting a stretch of time splits its firings. *)
Lemma fires_split (d t1 t2 : Z) :
  (t1 <= t2)%Z ->
  (fires d t1
   + fires (d + Z.of_nat (fires d t1) * AUTO_REFRESH_INTERVAL) t2)%nat
  = fires d t2.
Proof.
  intros Hle. apply fires_unique.
  - destruct (fires_bounds (d + Z.of_nat (fires d t1) * AUTO_REFRESH_INTERVAL) t2)
      as [Hhi _].
    rewrite Nat2Z.inj_add. lia.
  - destruct (fires_bounds d t1) as [_ Hlo1].
    destruct (fires_bounds (d + Z.of_nat (fires d t1) * AUTO_REFRESH_INTERVAL) t2)
      as [_ Hlo2].
    rewrite Nat2Z.inj_add.
    destruct Hlo2 as [Hz | Hlo2].
    + rewrite Hz, Nat.add_0_r. cbn [Z.of_nat].
      destruct Hlo1 as [-> | Hlo1]; [left; reflexivity | right; lia].
    + right. lia.
Qed.

(** One firing of the view's interval: a fetch, and the interval is due
    one period later. *)
Lemma advance_fire (backend : Backend) (fuel : nat) (target : Z)
    (w : World View) (id : nat) (d : Z) :
  timers w = [interval id d] ->
  (d <= target)%Z ->
  exists w2,
    timers w2 = [interval id (d + AUTO_REFRESH_INTERVAL)]
    /\ clock w2 = Z.max (clock w) d
    /\ next_timer w2 = next_timer w
    /\ confirmDialog (state w2) = confirmDialog (state w)
    /\ fst (advance backend (Datatypes.S fuel) target w)
       = fst (advance backend fuel target w2)
    /\ requests (snd (advance backend (Datatypes.S fuel) target w))
       = (GET, url, None) :: requests (snd (advance backend fuel target w2)).
Proof.
  intros Ht Hle. destruct w as [v c ts n].
  change (ts = [interval id d]) in Ht. subst ts.
  exists (fst (interaction backend (fetchSessions cfg)
                 (mkWorld v (Z.max c d)
                    [interval id (d + AUTO_REFRESH_INTERVAL)] n))).
  destruct (fetchSessions_keeps_host cfg backend
              (mkWorld v (Z.max c d)
                 [interval id (d + AUTO_REFRESH_INTERVAL)] n))
    as (Hc & Hts & Hn).
  split; [exact Hts|]. split; [exact Hc|]. split; [exact Hn|].
  split;
    [exact (fetchSessions_keeps_dialog cfg backend
              (mkWorld v (Z.max c d)
                 [interval id (d + AUTO_REFRESH_INTERVAL)] n))|].
  change (advance backend (Datatypes.S fuel) target ?w0) with
    (match next_due (timers w0) target with
     | None => (set_clock target w0, [])
     | Some t =>
         let w1 := reschedule t (set_clock (due t) w0) in
         let '(w2, l) := interaction backend (callback t) w1 in
         let '(w3, l') := advance backend fuel target w2 in
         (w3, l ++ l')
     end).
  unfold next_due, interval. cbn [timers filter due].
  apply Z.leb_le in Hle. rewrite Hle.
  cbn [fold_right earlier callback due]. cbv zeta.
  unfold reschedule, set_clock.
  cbn [timers map timer_id period due callback state clock next_timer].
  rewrite Nat.eqb_refl.
  change (Z.max 1 AUTO_REFRESH_INTERVAL) with AUTO_REFRESH_INTERVAL.
  pose proof (fetchSessions_requests cfg backend
                (mkWorld v (Z.max c d)
                   [mkTimer id AUTO_REFRESH_INTERVAL
                      (d + AUTO_REFRESH_INTERVAL) (fetchSessions cfg)] n))
    as Hreq.
  destruct (interaction backend (fetchSessions cfg) _) as [w2 l].
  cbn [fst snd] in *.
  destruct (advance backend fuel target w2) as [w3 l'].
  cbn [fst snd]. split; [reflexivity|].
  rewrite requests_app, Hreq. reflexivity.
Qed.

(** Moving the clock to [target] fires the view's interval [n] times when
    the [n]-th firing is the last one due by then. *)
Lemma advance_fires (backend : Backend) (n : nat) :
  forall (extra : nat) (target : Z) (w : World View) (id : nat) (d : Z),
    timers w = [interval id d] ->
    (target < d + Z.of_nat n * AUTO_REFRESH_INTERVAL)%Z ->
    n = O \/ (d + (Z.of_nat n - 1) * AUTO_REFRESH_INTERVAL <= target)%Z ->
    let r := advance backend (Datatypes.S (n + extra)) target w in
    requests (snd r) = repeat (GET, url, None) n
    /\ timers (fst r) = [interval id (d + Z.of_nat n * AUTO_REFRESH_INTERVAL)]
    /\ clock (fst r) = Z.max (clock w) target
    /\ next_timer (fst r) = next_timer w
    /\ confirmDialog (state (fst r)) = confirmDialog (state w).
Proof.
  induction n as [|n IH]; intros extra target w id d Ht Hhi Hlo; cbv zeta.
  - rewrite (advance_before_due backend _ target w (interval id d) Ht)
      by (cbn in *; lia).
    cbn. rewrite Ht. repeat split. unfold interval. f_equal. f_equal. lia.
  - assert (Hle : (d <= target)%Z).
    { destruct Hlo as [Hz | Hlo]; [discriminate|].
      unfold AUTO_REFRESH_INTERVAL in *. lia. }
    destruct (advance_fire backend (Datatypes.S (n + extra)) target w id d Ht Hle)
      as (w2 & Ht2 & Hc2 & Hn2 & Hd2 & Hfst & Hreq).
    change (Datatypes.S n + extra)%nat with (Datatypes.S (n + extra)).
    rewrite Hfst, Hreq.
    destruct (IH extra target w2 id (d + AUTO_REFRESH_INTERVAL)%Z Ht2)
      as (Hr & Hts & Hc & Hn & Hd).
    + unfold AUTO_REFRESH_INTERVAL in *. lia.
    + destruct n as [|n']; [left; reflexivity | right].
      destruct Hlo as [Hz | Hlo]; [discriminate|].
      unfold AUTO_REFRESH_INTERVAL in *. lia.
    + cbv zeta in *. rewrite Hr, Hts, Hc, Hn, Hd, Hc2, Hn2, Hd2.
      split; [reflexivity|].
      split; [|split; [lia | split; reflexivity]].
      unfold interval. f_equal. f_equal.
      unfold AUTO_REFRESH_INTERVAL. lia.
Qed.

(** A tick of the clock on a view whose interval is due at [d]. *)
Lemma tick_spec (backend : Backend) (ms : Z) (m : Mounted) (id : nat) (d : Z) :
  timers (world m) = [interval id d] ->
  let target := (clock (world m) + ms)%Z in
  let r := tick backend ms m in
  requests (snd r) = repeat (GET, url, None) (fires d target)
  /\ timers (world (fst r))
     = [interval id (d + Z.of_nat (fires d target) * AUTO_REFRESH_INTERVAL)]
  /\ clock (world (fst r)) = Z.max (clock (world m)) target
  /\ intervalId (fst r) = intervalId m
  /\ confirmDialog (state (world (fst r)))
     = confirmDialog (state (world m)).
Proof.
  intros Ht. cbv zeta. unfold tick, advanceTimersByTime.
  assert (Hf : firings (clock (world m) + ms) (world m)
               = (fires d (clock (world m) + ms) + 0)%nat).
  { unfold firings, fires. rewrite Ht. cbn [fold_right due period interval].
    change (Z.max 1 AUTO_REFRESH_INTERVAL) with AUTO_REFRESH_INTERVAL.
    destruct (d <=? clock (world m) + ms)%Z; lia. }
  rewrite Hf.
  destruct (fires_bounds d (clock (world m) + ms)) as [Hhi Hlo].
  pose proof (advance_fires backend (fires d (clock (world m) + ms)) 0
                (clock (world m) + ms) (world m) id d Ht Hhi Hlo) as H.
  cbv zeta in H.
  destruct (advance backend _ _ (world m)) as [w' l]. cbn [fst snd world intervalId] in *.
  tauto.
Qed.

(** Ticks keep the refresh in place. *)
Lemma tick_keeps_refreshing (backend : Backend) (ms : Z) (m : Mounted) :
  refreshing cfg m -> refreshing cfg (fst (tick backend ms m)).
Proof.
  intros (id & d & Hid & Ht & Hlt).
  destruct (tick_spec backend ms m id d Ht) as (_ & Ht' & Hc' & Hid' & _).
  destruct (fires_bounds d (clock (world m) + ms)) as [Hhi _].
  exists id, (d + Z.of_nat (fires d (clock (world m) + ms)) * AUTO_REFRESH_INTERVAL)%Z.
  rewrite Hid', Ht', Hc'. split; [exact Hid|]. split; [reflexivity|].
  unfold AUTO_REFRESH_INTERVAL in *. lia.
Qed.

(** User actions keep the refresh in place. *)
Lemma user_keeps_refreshing (backend : Backend) (a : Action) (m : Mounted) :
  refreshing cfg m -> refreshing cfg (fst (user cfg backend a m)).
Proof.
  intros (id & d & Hid & Ht & Hlt).
  destruct (act_keeps_host cfg backend a (world m)) as (Hc & Hts & _).
  cbv zeta in Hc, Hts.
  unfold user. destruct (act cfg backend a (world m)) as [w l].
  cbn [fst snd world intervalId] in *.
  exists id, d. cbn [fst snd world intervalId]. rewrite Hts, Hc. auto.
Qed.

Lemma mount_refreshing (backend : Backend) (now : Z) :
  refreshing cfg (fst (mount cfg backend now)).
Proof.
  destruct (mount_spec cfg backend now) as (Hid & Hc & Ht & _).
  cbv zeta in *. exists O, (now + AUTO_REFRESH_INTERVAL)%Z.
  rewrite Hid, Ht, Hc. repeat split. unfold AUTO_REFRESH_INTERVAL. lia.
Qed.
End RefreshCadence.

(** ** Whole sessions of use *)

Section Scripts.
Import ActiveSessionsManagement Confirmation SelfServiceLifecycle SelfServiceScript.
Variable cfg : RuntimeConfig.

Let url : string := SessionService.getPrefix cfg +++ "/self/tokens/active".

(** What a user action sends: a termination's requests when it is the
    affirmative button of an open dialog, the fetch when it is the
    refresh icon, and otherwise nothing. *)
Lemma act_requests_cases (backend : Backend) (a : Action) (w : World View) :
  (a = ClickTerminate /\ open (confirmDialog (state w)) = true
   /\ exists tokenIds,
        requests (snd (act cfg backend a w))
        = termination_requests cfg backend tokenIds)
  \/ requests (snd (act cfg backend a w)) = [(GET, url, None)]
  \/ requests (snd (act cfg backend a w)) = [].
Proof.
  destruct a; unfold act, dispatch;
    (destruct (offered (state w) _) eqn:Hoff; [|right; right; reflexivity]).
  - right; right; reflexivity.
  - right; left. unfold handler. apply fetchSessions_requests.
  - right; right; reflexivity.
  - right; right; reflexivity.
  - right; right. unfold handler. destruct (nth_error _ _); reflexivity.
  - right; right; reflexivity.
  - right; right; reflexivity.
  - cbn in Hoff.
    destruct (confirmDialog (state w)) as [o pending all] eqn:Hd.
    cbn in Hoff. subst o.
    assert (Hact : interaction backend (handler cfg (state w) ClickTerminate) w
                   = act cfg backend ClickTerminate w).
    { unfold act, dispatch, offered. rewrite Hd. reflexivity. }
    rewrite Hact. clear Hact.
    destruct all.
    + pose proof (act_confirm_all cfg backend w pending Hd) as H.
      cbv zeta in H. destruct (others (sessions (state w))).
      * right; right. rewrite H. reflexivity.
      * left. destruct H as [_ ->]. eauto.
    + destruct pending as [sid|].
      * destruct (String.eqb_spec sid "") as [-> | Hne].
        -- right; right. unfold act, dispatch, offered, handler, handleConfirm.
           rewrite Hd. reflexivity.
        -- left. destruct (act_confirm_single cfg backend w sid Hd Hne) as [_ ->].
           eauto.
      * right; right. unfold act, dispatch, offered, handler, handleConfirm.
        rewrite Hd. reflexivity.
Qed.

Lemma termination_requests_shape (backend : Backend) (tokenIds : list string) :
  Forall (self_request cfg) (termination_requests cfg backend tokenIds).
Proof.
  unfold termination_requests. constructor.
  - right. exists tokenIds. reflexivity.
  - destruct (on_post backend _ _); repeat constructor.
Qed.

Lemma invalidations_of_fetches (n : nat) :
  filter (is_invalidate cfg) (repeat (GET, url, None) n) = [].
Proof. induction n; [reflexivity | exact IHn]. Qed.

(** One step of a script on a view whose refresh is in place. *)
Lemma step_spec (backend : Backend) (s : Step) (m : Mounted) :
  refreshing cfg m ->
  let r := step cfg backend s m in
  refreshing cfg (fst r)
  /\ Forall (self_request cfg) (requests (snd r))
  /\ (invalidations cfg (snd r) <> [] ->
      s = User ClickTerminate
      /\ open (confirmDialog (state (world m))) = true)
  /\ (open (confirmDialog (state (world m))) = false ->
      open (confirmDialog (state (world (fst r)))) = true ->
      destructive (backend, s)).
Proof.
  intros Hm. cbv zeta. destruct s as [a | ms]; unfold step.
  - split; [apply user_keeps_refreshing; exact Hm|].
    pose proof (act_requests_cases backend a (world m)) as Hcases.
    pose proof (dialog_opens_only_on_request cfg backend a (world m)) as Hopens.
    unfold user, invalidations.
    destruct (act cfg backend a (world m)) as [w l]. cbn [fst snd world] in *.
    split; [|split].
    + destruct Hcases as [(_ & _ & ids & ->) | [-> | ->]].
      * apply termination_requests_shape.
      * repeat constructor.
      * constructor.
    + intros Hsent.
      destruct Hcases as [(-> & Hopen & _) | [Hreq | Hreq]]; [auto | |];
        rewrite Hreq in Hsent; cbn in Hsent; congruence.
    + intros Hclosed Hopen.
      destruct (Hopens Hclosed Hopen) as [-> | [card ->]];
        [left | right; exists card]; reflexivity.
  - split; [apply tick_keeps_refreshing; exact Hm|].
    destruct Hm as (id & d & _ & Ht & _).
    destruct (tick_spec cfg backend ms m id d Ht) as (Hreq & _ & _ & _ & Hd).
    unfold invalidations. rewrite Hreq, Hd. split; [|split].
    + apply Forall_forall. intros r Hr. apply repeat_spec in Hr. subst r.
      left. reflexivity.
    + rewrite invalidations_of_fetches. congruence.
    + congruence.
Qed.

Lemma play_cons (backend : Backend) (s : Step)
    (rest : list (Backend * Step)) (m : Mounted) :
  play cfg ((backend, s) :: rest) m
  = (fst (play cfg rest (fst (step cfg backend s m))),
     snd (step cfg backend s m)
     :: snd (play cfg rest (fst (step cfg backend s m)))).
Proof.
  cbn [play]. destruct (step cfg backend s m) as [m1 l]. cbn [fst snd].
  destruct (play cfg rest m1) as [m2 ls]. reflexivity.
Qed.

(** Along a script the refresh stays in place and nothing but the view's
    two requests is sent. *)
Lemma play_keeps_refreshing (script : list (Backend * Step)) :
  forall m,
    refreshing cfg m ->
    refreshing cfg (fst (play cfg script m))
    /\ Forall (fun l => Forall (self_request cfg) (requests l))
         (snd (play cfg script m)).
Proof.
  induction script as [|[backend s] rest IH]; intros m Hm.
  - split; [exact Hm | constructor].
  - rewrite play_cons. cbn [fst snd].
    destruct (step_spec backend s m Hm) as (Hm1 & Hshape & _).
    destruct (IH _ Hm1) as [Hend Hrest].
    split; [exact Hend | constructor; assumption].
Qed.

(** Along a script an invalidate call is sent only by the affirmative
    button, and only after a destructive control was clicked. *)
Lemma play_gate (script : list (Backend * Step)) :
  forall (before : list (Backend * Step)) (m : Mounted),
    refreshing cfg m ->
    (open (confirmDialog (state (world m))) = true ->
     Exists destructive before) ->
    forall i l,
      nth_error (snd (play cfg script m)) i = Some l ->
      invalidations cfg l <> [] ->
      (exists backend, nth_error script i = Some (backend, User ClickTerminate))
      /\ Exists destructive (before ++ firstn i script).
Proof.
  induction script as [|[backend s] rest IH]; intros before m Hm Hhist i l Hl Hsent.
  - destruct i; discriminate.
  - rewrite play_cons in Hl. cbn [snd] in Hl.
    destruct (step_spec backend s m Hm) as (Hm1 & _ & Hgate & Hopens).
    destruct i as [|i]; cbn [nth_error firstn] in *.
    + injection Hl as <-. destruct (Hgate Hsent) as [-> Hopen].
      split; [exists backend; reflexivity|].
      rewrite app_nil_r. exact (Hhist Hopen).
    + destruct (IH (before ++ [(backend, s)]) _ Hm1) with (i := i) (l := l)
        as [Hstep Hex]; try assumption.
      * intros Hopen1.
        destruct (open (confirmDialog (state (world m)))) eqn:Hopen.
        -- apply Exists_app. left. exact (Hhist eq_refl).
        -- apply Exists_app. right. constructor.
           exact (Hopens eq_refl Hopen1).
      * split; [exact Hstep|]. rewrite <- app_assoc in Hex. exact Hex.
Qed.


(** X4.  Along any script on the mounted view, a step that sends an
    invalidate call is a click on the affirmative button of the dialog,
    and an earlier step of the script was a click on a destructive
    control (a delete icon or "Terminate All Other Sessions"). *)
Theorem script_confirmation_gate
    (script : list (Backend * Step)) (backend : Backend) (now : Z)
    (i : nat) (l : list (Obs View)) :
  nth_error (snd (play cfg script (fst (mount cfg backend now)))) i = Some l ->
  invalidations cfg l <> [] ->
  (exists backend', nth_error script i = Some (backend', User ClickTerminate))
  /\ Exists destructive (firstn i script).
Proof.
  intros Hl Hsent.
  apply (play_gate script [] _ (mount_refreshing cfg backend now)) with (l := l);
    try assumption.
  intros Hopen. exfalso. revert Hopen.
  unfold mount, effect. cbn.
  destruct (on_get backend _); cbn; discriminate.
Qed.

(** User actions alone leave the clock and the interval as mounting set
    them. *)
Lemma play_acting_keeps_host (acts : list (Backend * Action)) :
  forall m,
    clock (world (fst (play cfg (acting acts) m))) = clock (world m)
    /\ timers (world (fst (play cfg (acting acts) m))) = timers (world m).
Proof.
  induction acts as [|[backend a] acts IH]; intros m.
  - split; reflexivity.
  - change (acting ((backend, a) :: acts))
      with ((backend, User a) :: acting acts).
    rewrite play_cons. cbn [fst snd step].
    destruct (IH (fst (user cfg backend a m))) as [-> ->].
    destruct (act_keeps_host cfg backend a (world m)) as (Hc & Hts & _).
    cbv zeta in Hc, Hts. unfold user.
    destruct (act cfg backend a (world m)) as [w l].
    cbn [fst snd world] in *. auto.
Qed.

(** X5.  After mounting, and whatever the user has done since, moving
    the clock on by [ms >= 0] milliseconds fetches the list exactly
    [ms / 30000] times (division rounding down), and sends nothing else. *)
Theorem refresh_cadence (mounting backend : Backend) (now : Z)
    (acts : list (Backend * Action)) (ms : Z) :
  (0 <= ms)%Z ->
  requests
    (snd (tick backend ms
            (fst (play cfg (acting acts) (fst (mount cfg mounting now))))))
  = repeat (GET, url, None) (Z.to_nat (ms / 30000)).
Proof.
  intros Hms.
  destruct (mount_spec cfg mounting now) as (_ & Hc & Ht & _).
  cbv zeta in Hc, Ht.
  destruct (play_acting_keeps_host acts (fst (mount cfg mounting now)))
    as [Hc' Ht'].
  rewrite Hc in Hc'. rewrite Ht in Ht'.
  destruct (tick_spec cfg backend ms _ O (now + AUTO_REFRESH_INTERVAL)%Z Ht')
    as (Hreq & _).
  rewrite Hreq, Hc'. rewrite fires_after_mount by exact Hms. reflexivity.
Qed.

(** X6.  At any point of a script, moving the clock on in two steps
    ([a] then [b] milliseconds, neither negative) sends the same fetches
    as moving it on once by [a + b], and leaves the interval due at the
    same time. *)
Theorem ticks_compose (script : list (Backend * Step))
    (mounting first second once : Backend) (now a b : Z) :
  (0 <= a)%Z -> (0 <= b)%Z ->
  let m := fst (play cfg script (fst (mount cfg mounting now))) in
  let halfway := fst (tick first a m) in
  requests (snd (tick first a m)) ++ requests (snd (tick second b halfway))
  = requests (snd (tick once (a + b) m))
  /\ map due (timers (world (fst (tick second b halfway))))
     = map due (timers (world (fst (tick once (a + b) m)))).
Proof.
  intros Ha Hb. cbv zeta.
  destruct (play_keeps_refreshing script _ (mount_refreshing cfg mounting now))
    as [(id & d & _ & Ht & Hlt) _].
  set (m := fst (play cfg script (fst (mount cfg mounting now)))) in *.
  destruct (tick_spec cfg first a m id d Ht) as (Hr1 & Ht1 & Hc1 & _).
  destruct (tick_spec cfg second b _ id _ Ht1) as (Hr2 & Ht2 & _).
  destruct (tick_spec cfg once (a + b) m id d Ht) as (Hr3 & Ht3 & _).
  rewrite Hr1, Hr2, Hr3, Ht2, Ht3, Hc1.
  rewrite <- repeat_app.
  replace (Z.max (clock (world m)) (clock (world m) + a) + b)%Z
    with (clock (world m) + (a + b))%Z by lia.
  pose proof (fires_split d (clock (world m) + a)
                (clock (world m) + (a + b)) ltac:(lia)) as Hsplit.
  rewrite Hsplit. split; [reflexivity|].
  cbn [map due]. rewrite <- Hsplit, Nat2Z.inj_add. f_equal. lia.
Qed.
End Scripts.

(** ** What a confirmation is aimed at *)

Lemma NoDup_map_same {A B : Type} (f : A -> B) (l : list A) (a b : A) :
  NoDup (map f l) -> In a l -> In b l -> f a = f b -> a = b.
Proof.
  induction l as [|x l IH]; cbn; intros Hnd Ha Hb Hab; [contradiction|].
  inversion Hnd as [|y ys Hnotin Hnd']; subst.
  destruct Ha as [-> | Ha], Hb as [-> | Hb].
  - reflexivity.
  - exfalso. apply Hnotin. rewrite Hab. apply in_map. exact Hb.
  - exfalso. apply Hnotin. rewrite <- Hab. apply in_map. exact Ha.
  - exact (IH Hnd' Ha Hb Hab).
Qed.

Section SelfTargets.
Import ActiveSessionsManagement Confirmation.
Variable cfg : RuntimeConfig.
Variable backend : Backend.

Lemma invalidate_own_in_termination (tokenIds ids : list string) :
  In (invalidate_own cfg ids) (termination_requests cfg backend tokenIds) ->
  ids = tokenIds.
Proof.
  unfold termination_requests, invalidate_own. intros [H | H].
  - congruence.
  - destruct (on_post backend _ _); [destruct H as [H | []]|destruct H];
      discriminate.
Qed.

Lemma offered_ClickDelete (v : View) (card : nat) :
  offered v (ClickDelete card) = true ->
  exists s, nth_error (sessions v) card = Some s /\ isCurrent s = false.
Proof.
  unfold offered. intros H. apply andb_prop in H as [_ H].
  destruct (nth_error (sessions v) card) as [s|]; [|discriminate].
  exists s. split; [reflexivity|]. destruct (isCurrent s); [discriminate|reflexivity].
Qed.

Lemma offered_ClickTerminateAll (v : View) :
  offered v ClickTerminateAll = true ->
  loading v = false /\ others (sessions v) <> [].
Proof.
  unfold offered, otherSessionsCount. intros H.
  apply negb_true_iff, orb_false_iff in H as [Hl Hn].
  split; [exact Hl|]. intros He. rewrite He in Hn. discriminate.
Qed.

Lemma act_not_offered (a : Action) (w : World View) :
  offered (state w) a = false -> act cfg backend a w = (w, []).
Proof. intros H. unfold act, dispatch. rewrite H. reflexivity. Qed.

(** X7.  With unique session ids in the list on screen and no dialog
    open: whatever control the user clicks and then confirms, no
    invalidate call that results names the id of a session flagged
    current. *)
Theorem current_session_is_never_targeted (w : World View) (request : Action)
    (current : ActiveSession) (ids : list string) :
  open (confirmDialog (state w)) = false ->
  NoDup (map sessionId (sessions (state w))) ->
  In current (sessions (state w)) ->
  isCurrent current = true ->
  In (invalidate_own cfg ids)
    (requests (snd (act cfg backend ClickTerminate
                      (fst (act cfg backend request w))))) ->
  ~ In (sessionId current) ids.
Proof.
  intros Hclosed Hnd Hin Hcur Hsent Htarget.
  destruct (open (confirmDialog (state (fst (act cfg backend request w)))))
    eqn:Hopen.
  - destruct (dialog_opens_only_on_request cfg backend request w Hclosed Hopen)
      as [-> | [card ->]].
    + destruct (offered (state w) ClickTerminateAll) eqn:Hoff.
      * rewrite (act_ClickTerminateAll cfg backend w Hoff) in Hsent.
        cbn [fst] in Hsent.
        pose proof (act_confirm_all cfg backend
                      (mkWorld (mkView (sessions (state w)) (loading (state w))
                         (error (state w)) (success (state w))
                         (mkConfirm true None true))
                         (clock w) (timers w) (next_timer w)) None eq_refl) as H.
        cbv zeta in H. cbn [state sessions] in H.
        destruct (others (sessions (state w))) eqn:Hothers.
        -- rewrite H in Hsent. destruct Hsent.
        -- destruct H as [_ H]. rewrite H in Hsent.
           apply invalidate_own_in_termination in Hsent. subst ids.
           rewrite <- Hothers in Htarget.
           apply others_ids_spec in Htarget as (s & Hs & Hnot & Hid).
           pose proof (NoDup_map_same sessionId _ s current Hnd Hs Hin Hid).
           congruence.
      * rewrite (act_not_offered _ w Hoff) in Hopen. cbn in Hopen. congruence.
    + destruct (offered (state w) (ClickDelete card)) eqn:Hoff.
      * destruct (offered_ClickDelete _ _ Hoff) as (s & Hnth & Hnot).
        rewrite (act_ClickDelete cfg backend w card s Hoff Hnth) in Hsent.
        cbn [fst] in Hsent.
        destruct (String.eqb_spec (sessionId s) "") as [He | Hne].
        -- revert Hsent. unfold act, dispatch, offered, handler, handleConfirm.
           cbn. rewrite He. cbn. auto.
        -- destruct (act_confirm_single cfg backend
                       (mkWorld (mkView (sessions (state w)) (loading (state w))
                          (error (state w)) (success (state w))
                          (mkConfirm true (Some (sessionId s)) false))
                          (clock w) (timers w) (next_timer w))
                       (sessionId s) eq_refl Hne) as [_ H].
           rewrite H in Hsent.
           apply invalidate_own_in_termination in Hsent. subst ids.
           destruct Htarget as [Hid | []].
           apply nth_error_In in Hnth.
           pose proof (NoDup_map_same sessionId _ s current Hnd Hnth Hin Hid).
           congruence.
      * rewrite (act_not_offered _ w Hoff) in Hopen. cbn in Hopen. congruence.
  - rewrite act_not_offered in Hsent; [destruct Hsent|].
    cbn. exact Hopen.
Qed.

(** X8.  When "Terminate All Other Sessions" is enabled and clicked and
    the list does not change before the confirmation, the confirmation
    sends exactly one invalidate call; its list of ids is not empty, and
    the dialog had announced as many sessions as ids are sent. *)
Theorem enabled_terminate_all_always_sends (w : World View) :
  offered (state w) ClickTerminateAll = true ->
  let asked := fst (act cfg backend ClickTerminateAll w) in
  let tokenIds := map sessionId (others (sessions (state w))) in
  invalidations cfg (snd (act cfg backend ClickTerminate asked))
  = [invalidate_own cfg tokenIds]
  /\ tokenIds <> []
  /\ dialogTitle (state asked) = "Terminate All Other Sessions?"%string
  /\ dialogText (state asked)
     = ("Are you sure you want to terminate all other sessions ("
        +++ decimal (length tokenIds)
        +++ ")? You will remain logged in only on this device.")%string.
Proof.
  intros Hoff. cbv zeta.
  destruct (offered_ClickTerminateAll _ Hoff) as [_ Hsome].
  rewrite (act_ClickTerminateAll cfg backend w Hoff). cbn [fst].
  pose proof (act_confirm_all cfg backend
                (mkWorld (mkView (sessions (state w)) (loading (state w))
                   (error (state w)) (success (state w))
                   (mkConfirm true None true))
                   (clock w) (timers w) (next_timer w)) None eq_refl) as H.
  cbv zeta in H. cbn [state sessions] in H.
  destruct (others (sessions (state w))) as [|s l] eqn:Hothers;
    [contradiction|].
  destruct H as [_ H]. unfold invalidations. rewrite H.
  split; [apply invalidations_termination|].
  split; [discriminate|]. split; [reflexivity|].
  unfold dialogText, otherSessionsCount. cbn [state confirmDialog isTerminateAll sessions].
  rewrite Hothers, length_map. reflexivity.
Qed.

(** X9.  "Terminate all others" with other sessions on screen: when the
    backend accepts the call, the list is fetched again, the fetched list
    is shown and the success message reads
    "All other sessions terminated successfully"; when the call fails,
    nothing further is sent, the list stays and the failure's message is
    shown. *)
Theorem terminate_all_refetches_on_success (v : View) (w : World View) :
  others (sessions v) <> [] ->
  let prefix := SessionService.getPrefix cfg in
  let tokenIds := map sessionId (others (sessions v)) in
  let r := interaction backend (handleTerminateAllOtherSessions cfg v) w in
  match on_post backend (prefix +++ "/self/tokens/invalidate")
          (body_tokenIds tokenIds) with
  | Resolved _ =>
      requests (snd r)
      = [invalidate_own cfg tokenIds;
         (GET, prefix +++ "/self/tokens/active", None)]
      /\ success (state (fst r))
         = Some "All other sessions terminated successfully"%string
      /\ sessions (state (fst r))
         = match on_get backend (prefix +++ "/self/tokens/active") with
           | Resolved response => array_or (sessions_field response) []
           | Rejected _ => sessions (state w)
           end
  | Rejected err =>
      requests (snd r) = [invalidate_own cfg tokenIds]
      /\ error (state (fst r))
         = Some (message_or err "Failed to terminate all sessions")
      /\ sessions (state (fst r)) = sessions (state w)
      /\ success (state (fst r)) = success (state w)
  end.
Proof.
  intros Hsome. cbv zeta.
  pose proof (interaction_handleTerminateAllOtherSessions cfg backend v w) as H.
  cbv zeta in H. destruct (others (sessions v)) as [|s l] eqn:Hothers;
    [contradiction|].
  destruct H as [-> ->]. unfold terminated, termination_requests. cbn.
  destruct (on_post backend _ _).
  - destruct (on_get backend _); repeat split.
  - repeat split.
Qed.
End SelfTargets.

(** ** The admin modal *)

Section AdminModal.
Import AdminSessionsModal.
Variable cfg : RuntimeConfig.
Variable backend : Backend.

Let list_url : string :=
  SessionService.getPrefix cfg +++ "/admin/tokens/active".
Let invalidate_url : string :=
  SessionService.getPrefix cfg +++ "/admin/tokens/invalidate".

(** The view after a fetch for [u] that began in [v]. *)
Let fetched (u : string) (v : View) (kept : option string) : View :=
  match on_post_sessions backend list_url (body_username u) with
  | Resolved response =>
      mkView (array_or (sessions_field response) []) false None kept
  | Rejected err =>
      mkView (sessions v) false
        (Some (message_or err "Failed to fetch sessions")) kept
  end.



Lemma admin_handleTerminate_named (u sessionId : string) (w : World View) :
  u <> ""%string ->
  let r := interaction backend (handleTerminate cfg (Some u) sessionId) w in
  match on_post backend invalidate_url
          (body_username_tokenIds u [sessionId]) with
  | Resolved _ =>
      fst r = mkWorld
                (fetched u (state w)
                   (Some "Session terminated successfully"%string))
                (clock w) (timers w) (next_timer w)
      /\ requests (snd r)
         = [invalidate_for_user cfg u [sessionId]; list_for_user cfg u]
  | Rejected err =>
      fst r = mkWorld
                (mkView (sessions (state w)) (loading (state w))
                   (Some (message_or err "Failed to terminate session"))
                   (success (state w)))
                (clock w) (timers w) (next_timer w)
      /\ requests (snd r) = [invalidate_for_user cfg u [sessionId]]
  end.
Proof.
  intros Hne. apply truthy_Some in Hne. cbv zeta.
  unfold interaction, handleTerminate, fetchSessions, when_truthy, fetched,
    list_for_user, invalidate_for_user, list_url, invalidate_url.
  rewrite Hne. cbn.
  destruct (on_post backend _ _); cbn.
  - destruct (on_post_sessions backend _ _); split; reflexivity.
  - split; reflexivity.
Qed.

(** X10.  The admin modal's termination: for a named user it sends the
    invalidate call for that user and the one session; when the backend
    accepts, the user's list is fetched again and shown (or kept, with the
    fetch's error, when that fetch fails) under the success message; when
    the call fails, nothing more is sent, the list and the loading flag
    stay and the failure's message is shown.  Without a user name nothing
    happens at all. *)
Theorem admin_termination_outcomes (username : option string)
    (sessionId : string) (w : World View) :
  let r := interaction backend (handleTerminate cfg username sessionId) w in
  match username with
  | Some u =>
      if truthy username then
        match on_post backend invalidate_url
                (body_username_tokenIds u [sessionId]) with
        | Resolved _ =>
            requests (snd r)
            = [invalidate_for_user cfg u [sessionId]; list_for_user cfg u]
            /\ success (state (fst r))
               = Some "Session terminated successfully"%string
            /\ match on_post_sessions backend list_url (body_username u) with
               | Resolved response =>
                   sessions (state (fst r))
                   = array_or (sessions_field response) []
                   /\ error (state (fst r)) = None
               | Rejected err =>
                   sessions (state (fst r)) = sessions (state w)
                   /\ error (state (fst r))
                      = Some (message_or err "Failed to fetch sessions")
               end
        | Rejected err =>
            requests (snd r) = [invalidate_for_user cfg u [sessionId]]
            /\ state (fst r)
               = mkView (sessions (state w)) (loading (state w))
                   (Some (message_or err "Failed to terminate session"))
                   (success (state w))
        end
      else r = (w, [])
  | None => r = (w, [])
  end.
Proof.
  cbv zeta. destruct username as [u|]; [|reflexivity].
  destruct (truthy (Some u)) eqn:Hu.
  - apply truthy_Some in Hu.
    pose proof (admin_handleTerminate_named u sessionId w Hu) as H.
    cbv zeta in H. destruct (on_post backend _ _).
    + destruct H as [-> ->]. unfold fetched. cbn.
      destruct (on_post_sessions backend _ _); repeat split.
    + destruct H as [-> ->]. split; reflexivity.
  - unfold interaction, handleTerminate, when_truthy. rewrite Hu. reflexivity.
Qed.


(** X12.  With the modal at rest (not loading): closing it, or leaving
    it without a user name, empties the list and clears both messages
    without any request.  When no call is in flight at the close,
    opening it afterwards for a user sends exactly that user's list
    request and then shows the fetched list, or the empty one when the
    fetch fails.  When a list call is in flight at the close, its reply
    is stored after the reset, since [fetchSessions] has no guard on
    [open]: the list is filled again, and a later opening whose fetch
    fails shows those sessions. *)
Theorem admin_close_resets_unless_fetch_pending (late : Backend)
    (previous : option string) (u next : string) (w : World View) :
  loading (state w) = false ->
  u <> ""%string ->
  next <> ""%string ->
  let answer (b : Backend) (user : string) (kept : list ActiveSession) :=
    match on_post_sessions b list_url (body_username user) with
    | Resolved response => array_or (sessions_field response) []
    | Rejected _ => kept
    end in
  let closing := interaction backend (effect cfg false previous) w in
  let reopening :=
    interaction backend (effect cfg true (Some next)) (fst closing) in
  let racing :=
    interaction late
      (Spawn (fetchSessions cfg (Some u)) (effect cfg false (Some u))) w in
  let reopening_late :=
    interaction backend (effect cfg true (Some next)) (fst racing) in
  (snd closing = []
   /\ state (fst closing) = initial
   /\ interaction backend (effect cfg true None) w = closing)
  /\ (requests (snd reopening) = [list_for_user cfg next]
      /\ sessions (state (fst reopening)) = answer backend next [])
  /\ (requests (snd racing) = [list_for_user cfg u]
      /\ sessions (state (fst racing)) = answer late u []
      /\ success (state (fst racing)) = None)
  /\ (requests (snd reopening_late) = [list_for_user cfg next]
      /\ sessions (state (fst reopening_late))
         = answer backend next (answer late u [])).
Proof.
  intros Hrest Hu Hnext. cbv zeta.
  assert (Hopen : forall (b : Backend) (user : string) (w0 : World View),
             user <> ""%string ->
             requests (snd (interaction b (effect cfg true (Some user)) w0))
             = [list_for_user cfg user]
             /\ sessions
                  (state (fst (interaction b (effect cfg true (Some user)) w0)))
                = match on_post_sessions b list_url (body_username user) with
                  | Resolved response => array_or (sessions_field response) []
                  | Rejected _ => sessions (state w0)
                  end).
  { intros b user w0 Hne. apply truthy_Some in Hne.
    unfold effect, interaction, spawn, fetchSessions, when_truthy,
      list_for_user, list_url.
    cbn [andb]. rewrite Hne. cbn.
    destruct (on_post_sessions b _ _); split; reflexivity. }
  split; [|split; [|split]].
  - unfold effect, interaction. cbn. rewrite Hrest. repeat split.
  - destruct (Hopen backend next
                (fst (interaction backend (effect cfg false previous) w)) Hnext)
      as [-> ->].
    split; reflexivity.
  - apply truthy_Some in Hu.
    unfold effect, interaction, fetchSessions, when_truthy, list_for_user,
      list_url.
    rewrite Hu. cbn.
    destruct (on_post_sessions late _ _); repeat split.
  - destruct (Hopen backend next
                (fst (interaction late
                        (Spawn (fetchSessions cfg (Some u))
                           (effect cfg false (Some u))) w)) Hnext)
      as [-> ->].
    split; [reflexivity|].
    apply truthy_Some in Hu.
    unfold effect, interaction, fetchSessions, when_truthy, list_url.
    rewrite Hu. cbn.
    destruct (on_post_sessions late _ _); reflexivity.
Qed.
End AdminModal.

(** ** Device icons *)

Lemma prefix_spec (k s : string) :
  String.prefix k s = true <-> exists after, s = k +++ after.
Proof.
  revert s. induction k as [|c k IH]; intros s.
  - split; [intros _; exists s; reflexivity | destruct s; reflexivity].
  - destruct s as [|c' s]; cbn.
    + split; [discriminate | intros [after H]; discriminate].
    + destruct (Ascii.ascii_dec c c') as [<- | Hne].
      * rewrite IH. split; intros [after H]; exists after; congruence.
      * split; [discriminate | intros [after H]; congruence].
Qed.

(** [includes] finds exactly the occurrences. *)
Lemma includes_spec (s k : string) :
  includes s k = true <-> occurs k s.
Proof.
  unfold occurs. induction s as [|c s IH].
  - unfold includes. rewrite orb_false_r, prefix_spec. split.
    + intros [after H]. exists EmptyString, after. exact H.
    + intros (before & after & H). destruct before; cbn in H.
      * exists after. exact H.
      * discriminate.
  - cbn [includes]. rewrite orb_true_iff, prefix_spec, IH. split.
    + intros [[after H] | (before & after & H)].
      * exists EmptyString, after. exact H.
      * exists (String c before), after. cbn. congruence.
    + intros (before & after & H). destruct before as [|c' before]; cbn in H.
      * left. exists after. exact H.
      * right. exists before, after. congruence.
Qed.

Lemma string_append_assoc (a b c : string) : (a +++ b) +++ c = a +++ b +++ c.
Proof. induction a; cbn; congruence. Qed.

Lemma occurs_context (k s before after : string) :
  occurs k s -> occurs k (before +++ s +++ after).
Proof.
  intros (b & a & ->). exists (before +++ b), (a +++ after).
  rewrite !string_append_assoc. reflexivity.
Qed.

Lemma toLowerCase_append (a b : string) :
  toLowerCase (a +++ b) = toLowerCase a +++ toLowerCase b.
Proof. induction a; cbn; congruence. Qed.

Lemma lower_ascii_idempotent (c : ascii) :
  lower_ascii (lower_ascii c) = lower_ascii c.
Proof. destruct c as [[] [] [] [] [] [] [] []]; reflexivity. Qed.

Lemma toLowerCase_idempotent (s : string) :
  toLowerCase (toLowerCase s) = toLowerCase s.
Proof.
  induction s; cbn; [reflexivity|].
  rewrite lower_ascii_idempotent. congruence.
Qed.

Lemma includes_true (s k : string) : includes s k = true <-> occurs k s.
Proof. apply includes_spec. Qed.

Lemma includes_false (s k : string) : includes s k = false <-> ~ occurs k s.
Proof.
  rewrite <- includes_spec. destruct (includes s k); split; congruence.
Qed.

(** X13.  The icon of a device descriptor, in both views alike: a phone
    when its lower-cased text contains "mobile", "android" or "iphone"
    anywhere; else a tablet when it contains "tablet" or "ipad"; else a
    computer.  Letter case plays no part. *)
Theorem getDeviceIcon_classifies (deviceInfo : string) :
  let text := toLowerCase deviceInfo in
  let phone := occurs "mobile" text \/ occurs "android" text
               \/ occurs "iphone" text in
  let tablet := occurs "tablet" text \/ occurs "ipad" text in
  let icon := ActiveSessionsManagement.getDeviceIcon deviceInfo in
  (icon = PhoneIcon <-> phone)
  /\ (icon = TabletIcon <-> ~ phone /\ tablet)
  /\ (icon = ComputerIcon <-> ~ phone /\ ~ tablet)
  /\ AdminSessionsModal.getDeviceIcon deviceInfo = icon
  /\ ActiveSessionsManagement.getDeviceIcon (toLowerCase deviceInfo) = icon.
Proof.
  cbv zeta.
  unfold ActiveSessionsManagement.getDeviceIcon,
    AdminSessionsModal.getDeviceIcon.
  rewrite toLowerCase_idempotent.
  set (text := toLowerCase deviceInfo).
  destruct (includes text "mobile") eqn:H1;
    destruct (includes text "android") eqn:H2;
    destruct (includes text "iphone") eqn:H3;
    destruct (includes text "tablet") eqn:H4;
    destruct (includes text "ipad") eqn:H5;
    cbn [orb];
    repeat match goal with
           | H : includes _ _ = true |- _ => apply includes_true in H
           | H : includes _ _ = false |- _ => apply includes_false in H
           end;
    repeat split; try tauto; try discriminate; intros; tauto.
Qed.

(** X14.  Text around a descriptor never takes the phone icon away: if a
    descriptor shows as a phone, so does any longer descriptor that
    contains it. *)
Theorem phone_icon_survives_context (deviceInfo before after : string) :
  ActiveSessionsManagement.getDeviceIcon deviceInfo = PhoneIcon ->
  ActiveSessionsManagement.getDeviceIcon (before +++ deviceInfo +++ after)
  = PhoneIcon.
Proof.
  unfold ActiveSessionsManagement.getDeviceIcon.
  rewrite !toLowerCase_append.
  set (text := toLowerCase deviceInfo).
  set (b := toLowerCase before). set (a := toLowerCase after).
  destruct (includes text "mobile" || includes text "android"
            || includes text "iphone") eqn:H; [intros _|].
  - assert (Hc : includes (b +++ text +++ a) "mobile"
                 || includes (b +++ text +++ a) "android"
                 || includes (b +++ text +++ a) "iphone" = true).
    { apply orb_true_iff in H as [H | H];
        [apply orb_true_iff in H as [H | H]|];
        apply includes_spec in H;
        apply (occurs_context _ _ b a), includes_spec in H;
        rewrite H; rewrite ?orb_true_r; reflexivity. }
    rewrite Hc. reflexivity.
  - destruct (includes text "tablet" || includes text "ipad"); discriminate.
Qed.

(* ================================================================== *)
(** * Further concrete runs *)

Section ComponentTests.
Import Examples.

(** The sessions of the component's tests. *)
Let chrome_on_windows : ActiveSession :=
  mkSession "session-1" "Chrome on Windows" (Some "Chrome 120"%string)
    (Some "Windows 11"%string) "192.168.1.1" (Some "New York, USA"%string)
    "2026-02-19T10:00:00Z" "2026-02-19T11:00:00Z" true.
Let safari_on_iphone : ActiveSession :=
  mkSession "session-2" "Safari on iPhone" (Some "Safari 17"%string)
    (Some "iOS 17"%string) "192.168.1.2" (Some "San Francisco, USA"%string)
    "2026-02-19T09:00:00Z" "2026-02-19T10:30:00Z" false.
Let mockSessions : list ActiveSession := [chrome_on_windows; safari_on_iphone].

(** "should open confirmation dialog when terminating a session" and
    "... for terminating all sessions": the titles that appear. *)
Example test_dialog_titles :
  let m := fst (SelfServiceLifecycle.mount cfg_default (listing mockSessions) 0) in
  let shown a :=
    ActiveSessionsManagement.dialogTitle
      (state (SelfServiceLifecycle.world
                (fst (SelfServiceLifecycle.user cfg_default
                        (listing mockSessions) a m)))) in
  shown (ActiveSessionsManagement.ClickDelete 1) = "Terminate Session?"%string
  /\ shown ActiveSessionsManagement.ClickTerminateAll
     = "Terminate All Other Sessions?"%string.
Proof. cbv zeta. split; reflexivity. Qed.

(** "should terminate all other sessions when confirmed": the call is
    made with [session-2] and the success message appears. *)
Example test_terminate_all_confirmed :
  let backend := listing mockSessions in
  let m0 := fst (SelfServiceLifecycle.mount cfg_default backend 0) in
  let r := SelfServiceScript.play cfg_default
             [(backend, SelfServiceScript.User
                          ActiveSessionsManagement.ClickTerminateAll);
              (backend, SelfServiceScript.User
                          ActiveSessionsManagement.ClickTerminate)] m0 in
  map (@requests _) (snd r)
  = [[]; [invalidate_own cfg_default ["session-2"%string];
          (GET, "/sdp/self/tokens/active"%string, None)]]
  /\ ActiveSessionsManagement.success
       (state (SelfServiceLifecycle.world (fst r)))
     = Some "All other sessions terminated successfully"%string.
Proof. cbv zeta. split; reflexivity. Qed.

(** "should manually refresh sessions when refresh button is clicked":
    the list is requested a second time. *)
Example test_manual_refresh :
  let backend := listing mockSessions in
  let m0 := fst (SelfServiceLifecycle.mount cfg_default backend 0) in
  requests (snd (SelfServiceLifecycle.mount cfg_default backend 0))
  ++ requests (snd (SelfServiceLifecycle.user cfg_default backend
                      ActiveSessionsManagement.ClickRefresh m0))
  = [(GET, "/sdp/self/tokens/active"%string, None);
     (GET, "/sdp/self/tokens/active"%string, None)].
Proof. reflexivity. Qed.

(** The icons of the tests' devices, and a descriptor that names both a
    phone and a tablet. *)
Example test_device_icons :
  ActiveSessionsManagement.getDeviceIcon "Chrome on Windows" = ComputerIcon
  /\ ActiveSessionsManagement.getDeviceIcon "Safari on iPhone" = PhoneIcon
  /\ ActiveSessionsManagement.getDeviceIcon "Safari on iPad" = TabletIcon
  /\ ActiveSessionsManagement.getDeviceIcon "Android Tablet" = PhoneIcon
  /\ ActiveSessionsManagement.getDeviceIcon "" = ComputerIcon.
Proof. repeat split. Qed.

(** The text of the dialog counts the other sessions. *)
Example test_dialog_text :
  ActiveSessionsManagement.dialogText
    (ActiveSessionsManagement.mkView
       [session_1; session_2; session_3] false None None
       (ActiveSessionsManagement.mkConfirm true None true))
  = "Are you sure you want to terminate all other sessions (2)? You will remain logged in only on this device."%string.
Proof. reflexivity. Qed.
End ComponentTests.

(** X4 on the scenario of the tests: the delete icon of the second card,
    then the affirmative button. *)
Lemma script_confirmation_gate_witness :
  let script :=
    [(Examples.listing [Examples.session_1; Examples.session_2],
      SelfServiceScript.User (ActiveSessionsManagement.ClickDelete 1));
     (Examples.listing [Examples.session_1],
      SelfServiceScript.User ActiveSessionsManagement.ClickTerminate)] in
  (exists backend',
      nth_error script 1
      = Some (backend',
              SelfServiceScript.User ActiveSessionsManagement.ClickTerminate))
  /\ Exists SelfServiceScript.destructive (firstn 1 script).
Proof.
  cbv zeta.
  eapply (script_confirmation_gate Examples.cfg_default
            [(Examples.listing [Examples.session_1; Examples.session_2],
              SelfServiceScript.User (ActiveSessionsManagement.ClickDelete 1));
             (Examples.listing [Examples.session_1],
              SelfServiceScript.User ActiveSessionsManagement.ClickTerminate)]
            (Examples.listing [Examples.session_1; Examples.session_2]) 0 1).
  - reflexivity.
  - intros H. vm_compute in H. discriminate H.
Defined.

(** X5 on ninety seconds after mounting. *)
Lemma refresh_cadence_witness :
  requests
    (snd (SelfServiceLifecycle.tick
            (Examples.listing [Examples.session_1]) 90000
            (fst (SelfServiceScript.play Examples.cfg_default
                    (SelfServiceScript.acting [])
                    (fst (SelfServiceLifecycle.mount Examples.cfg_default
                            (Examples.listing [Examples.session_1]) 0))))))
  = repeat (GET, "/sdp/self/tokens/active"%string, None) 3.
Proof.
  apply (refresh_cadence Examples.cfg_default
           (Examples.listing [Examples.session_1])
           (Examples.listing [Examples.session_1]) 0 [] 90000).
  discriminate.
Defined.

(** X6 on twenty then ten seconds against thirty at once. *)
Lemma ticks_compose_witness :
  let backend := Examples.listing [Examples.session_1] in
  let m := fst (SelfServiceScript.play Examples.cfg_default []
                  (fst (SelfServiceLifecycle.mount Examples.cfg_default
                          backend 0))) in
  requests (snd (SelfServiceLifecycle.tick backend 20000 m))
  ++ requests (snd (SelfServiceLifecycle.tick backend 10000
                      (fst (SelfServiceLifecycle.tick backend 20000 m))))
  = requests (snd (SelfServiceLifecycle.tick backend 30000 m)).
Proof.
  cbv zeta.
  refine (proj1 (ticks_compose Examples.cfg_default []
                   (Examples.listing [Examples.session_1])
                   (Examples.listing [Examples.session_1])
                   (Examples.listing [Examples.session_1])
                   (Examples.listing [Examples.session_1])
                   0 20000 10000 _ _));
    discriminate.
Defined.

(** X7 on the list session-1 (current), session-2: the delete icon of
    session-2, confirmed. *)
Lemma current_session_is_never_targeted_witness :
  In (invalidate_own Examples.cfg_default ["session-2"%string])
    (requests
       (snd (ActiveSessionsManagement.act Examples.cfg_default
               (Examples.listing [Examples.session_1])
               ActiveSessionsManagement.ClickTerminate
               (fst (ActiveSessionsManagement.act Examples.cfg_default
                       (Examples.listing [Examples.session_1])
                       (ActiveSessionsManagement.ClickDelete 1)
                       (Examples.at_rest
                          (Examples.showing
                             [Examples.session_1; Examples.session_2])))))))
  /\ ~ In (sessionId Examples.session_1) ["session-2"%string].
Proof.
  split; [vm_compute; left; reflexivity|].
  refine (current_session_is_never_targeted Examples.cfg_default
            (Examples.listing [Examples.session_1])
            (Examples.at_rest
               (Examples.showing [Examples.session_1; Examples.session_2]))
            (ActiveSessionsManagement.ClickDelete 1)
            Examples.session_1 ["session-2"%string]
            eq_refl _ _ eq_refl _).
  - repeat constructor; cbn; intuition discriminate.
  - left. reflexivity.
  - vm_compute. left. reflexivity.
Defined.

(** X8 on the list session-1 (current), session-2, session-3. *)
Lemma enabled_terminate_all_always_sends_witness :
  let cfg := Examples.cfg_default in
  let backend := Examples.listing [Examples.session_1] in
  let w := Examples.at_rest
             (Examples.showing
                [Examples.session_1; Examples.session_2; Examples.session_3]) in
  invalidations cfg
    (snd (ActiveSessionsManagement.act cfg backend
            ActiveSessionsManagement.ClickTerminate
            (fst (ActiveSessionsManagement.act cfg backend
                    ActiveSessionsManagement.ClickTerminateAll w))))
  = [invalidate_own cfg ["session-2"; "session-3"]%string].
Proof.
  cbv zeta.
  exact (proj1 (enabled_terminate_all_always_sends Examples.cfg_default
                  (Examples.listing [Examples.session_1])
                  (Examples.at_rest
                     (Examples.showing
                        [Examples.session_1; Examples.session_2;
                         Examples.session_3]))
                  eq_refl)).
Defined.

(** X9 on a backend that refuses the call. *)
Lemma terminate_all_refetches_on_success_witness :
  let v := Examples.showing [Examples.session_1; Examples.session_2] in
  let r := interaction (Examples.failing "Termination failed")
             (ActiveSessionsManagement.handleTerminateAllOtherSessions
                Examples.cfg_default v)
             (Examples.at_rest v) in
  requests (snd r) = [invalidate_own Examples.cfg_default ["session-2"%string]]
  /\ ActiveSessionsManagement.error (state (fst r))
     = Some "Termination failed"%string.
Proof.
  cbv zeta.
  pose proof (terminate_all_refetches_on_success Examples.cfg_default
                (Examples.failing "Termination failed")
                (Examples.showing [Examples.session_1; Examples.session_2])
                (Examples.at_rest
                   (Examples.showing [Examples.session_1; Examples.session_2])))
    as H.
  assert (Hsome : others (ActiveSessionsManagement.sessions
                            (Examples.showing
                               [Examples.session_1; Examples.session_2]))
                  <> []) by discriminate.
  destruct (H Hsome) as (Hreq & Herr & _).
  split; [exact Hreq | exact Herr].
Defined.

(** X14 on a descriptor around "iPhone". *)
Lemma phone_icon_survives_context_witness :
  ActiveSessionsManagement.getDeviceIcon "Safari on iPhone 15" = PhoneIcon.
Proof.
  exact (phone_icon_survives_context "iPhone" "Safari on " " 15" eq_refl).
Defined.

(** ** Messages and the dialog while calls are in flight *)

Section SelfMessages.
Import ActiveSessionsManagement Confirmation.
Variable cfg : RuntimeConfig.
Variable backend : Backend.

(** X15.  A fetch that succeeds replaces the list and clears whatever
    error was shown (also one a failed termination or the "no other
    sessions" guard had left); the success message and the pending
    confirmation are as before. *)
Theorem successful_fetch_clears_error (w : World View)
    (response : SessionsResponse) :
  on_get backend (SessionService.getPrefix cfg +++ "/self/tokens/active")
  = Resolved response ->
  let after := state (fst (interaction backend (fetchSessions cfg) w)) in
  sessions after = array_or (sessions_field response) []
  /\ error after = None
  /\ loading after = false
  /\ success after = success (state w)
  /\ confirmDialog after = confirmDialog (state w).
Proof.
  intros Hok. cbv zeta. rewrite interaction_fetchSessions, Hok. cbn.
  repeat split.
Qed.

(** X16.  Whenever the affirmative button sends an invalidate call, the
    view painted while that call is in flight is the view as it was at
    the click: the dialog is still open with the same pending target, and
    the affirmative button is still offered. *)
Theorem dialog_stays_open_in_flight (w : World View) :
  invalidations cfg (snd (act cfg backend ClickTerminate w)) <> [] ->
  hd_error (paints (snd (act cfg backend ClickTerminate w))) = Some (state w)
  /\ offered (state w) ClickTerminate = true.
Proof.
  unfold invalidations, act, dispatch.
  destruct (offered (state w) ClickTerminate) eqn:Hoff;
    [|cbn; congruence].
  intros Hsent. split; [|reflexivity]. revert Hsent.
  unfold handler, handleConfirm.
  destruct (isTerminateAll (confirmDialog (state w))).
  - unfold interaction, handleTerminateAllOtherSessions.
    destruct (others (sessions (state w))) as [|s l]; cbn; [congruence|].
    intros _. destruct (on_post backend _ _); cbn;
      [destruct (on_get backend _)|]; reflexivity.
  - destruct (dialog_sessionId (confirmDialog (state w))) as [sid|];
      [|cbn; congruence].
    destruct (truthy (Some sid)); [|cbn; congruence].
    intros _. unfold interaction, handleTerminateSession. cbn.
    destruct (on_post backend _ _); cbn;
      [destruct (on_get backend _)|]; reflexivity.
Qed.
End SelfMessages.

(** X15 after a termination that failed. *)
Lemma successful_fetch_clears_error_witness :
  ActiveSessionsManagement.error
    (state (fst (interaction (Examples.listing [Examples.session_1])
                   (ActiveSessionsManagement.fetchSessions Examples.cfg_default)
                   (Examples.at_rest
                      (ActiveSessionsManagement.mkView
                         [Examples.session_1; Examples.session_2] false
                         (Some "Termination failed"%string) None
                         ActiveSessionsManagement.closed)))))
  = None.
Proof.
  exact (proj1 (proj2 (successful_fetch_clears_error Examples.cfg_default
                         (Examples.listing [Examples.session_1])
                         (Examples.at_rest
                            (ActiveSessionsManagement.mkView
                               [Examples.session_1; Examples.session_2] false
                               (Some "Termination failed"%string) None
                               ActiveSessionsManagement.closed))
                         (mkResponse (Present [Examples.session_1]) 1)
                         eq_refl))).
Defined.

(** X16 on a confirmed single termination. *)
Lemma dialog_stays_open_in_flight_witness :
  let w := Examples.at_rest
             (ActiveSessionsManagement.mkView
                [Examples.session_1; Examples.session_2] false None None
                (ActiveSessionsManagement.mkConfirm true
                   (Some "session-2"%string) false)) in
  hd_error
    (paints (snd (ActiveSessionsManagement.act Examples.cfg_default
                    (Examples.listing [Examples.session_1])
                    ActiveSessionsManagement.ClickTerminate w)))
  = Some (state w).
Proof.
  cbv zeta.
  refine (proj1 (dialog_stays_open_in_flight Examples.cfg_default
                   (Examples.listing [Examples.session_1])
                   (Examples.at_rest
                      (ActiveSessionsManagement.mkView
                         [Examples.session_1; Examples.session_2] false None
                         None
                         (ActiveSessionsManagement.mkConfirm true
                            (Some "session-2"%string) false)))
                   _)).
  intros H. vm_compute in H. discriminate H.
Defined.


(** X12 on a list call for "alice" that is in flight when the modal
    closes: its reply fills the list again, and the opening for "bob",
    whose fetch fails, shows those sessions. *)
Lemma admin_close_resets_unless_fetch_pending_witness :
  let late := Examples.listing [Examples.session_2; Examples.session_3] in
  let w := Examples.at_rest (Examples.admin_showing [Examples.session_2]) in
  let closing :=
    interaction (Examples.failing "Network error")
      (AdminSessionsModal.effect Examples.cfg_default false
         (Some "alice"%string)) w in
  let racing :=
    interaction late
      (Spawn (AdminSessionsModal.fetchSessions Examples.cfg_default
                (Some "alice"%string))
         (AdminSessionsModal.effect Examples.cfg_default false
            (Some "alice"%string))) w in
  state (fst closing) = AdminSessionsModal.initial
  /\ AdminSessionsModal.sessions (state (fst racing))
     = [Examples.session_2; Examples.session_3]
  /\ AdminSessionsModal.sessions
       (state (fst (interaction (Examples.failing "Network error")
                      (AdminSessionsModal.effect Examples.cfg_default true
                         (Some "bob"%string)) (fst closing))))
     = []
  /\ AdminSessionsModal.sessions
       (state (fst (interaction (Examples.failing "Network error")
                      (AdminSessionsModal.effect Examples.cfg_default true
                         (Some "bob"%string)) (fst racing))))
     = [Examples.session_2; Examples.session_3].
Proof.
  cbv zeta.
  assert (Halice : "alice"%string <> ""%string) by discriminate.
  assert (Hbob : "bob"%string <> ""%string) by discriminate.
  destruct (admin_close_resets_unless_fetch_pending Examples.cfg_default
              (Examples.failing "Network error")
              (Examples.listing [Examples.session_2; Examples.session_3])
              (Some "alice"%string) "alice" "bob"
              (Examples.at_rest (Examples.admin_showing [Examples.session_2]))
              eq_refl Halice Hbob)
    as ((_ & Hclosed & _) & (_ & Hquiet) & (_ & Hraced & _) & (_ & Hstale)).
  split; [exact Hclosed|]. split; [exact Hraced|].
  split; [exact Hquiet | exact Hstale].
Defined.
